(** * The IN1K/MOP benchmark driver (tutorial/benchmark_in1kmop.py)

    A shallow embedding of the experiment script: the settings resolver
    [get_benchmark_settings], the three optimizer constructors [nsga2],
    [moead], [nsga3] with their shared [get_genetic_operator], the
    problem wrapper [In1KMOPProblem], the JSON encoder [NumpyEncoder]
    and the [__main__] loop over problem ids and repeats.

    Python integers are [Z]; Python floats are carried as exact
    rationals [Q] (the script never computes with them, it only passes
    them on); numpy 2-D arrays are lists of rows.  The script's effects
    (the list [experiment_stats], the files it writes, the calls it
    makes to its collaborators) are threaded through a state-and-error
    monad [M]. *)

From Stdlib Require Import ZArith List String QArith Lia Bool DecimalString
  FinFun.
Import ListNotations.

Local Open Scope string_scope.
Local Open Scope list_scope.
Local Open Scope Z_scope.

Local Set Warnings "-register-all".

(** ** Python values and exceptions *)

Definition Candidate := list Z.

(** A two-dimensional numpy array of floats, row by row. *)
Definition ndarray := list (list Q).

Definition shape0 (a : ndarray) : Z := Z.of_nat (List.length a).

(** [a.shape == (rows, cols)] for a two-dimensional array. *)
Definition has_shape (a : ndarray) (rows cols : Z) : Prop :=
  shape0 a = rows /\ Forall (fun row => Z.of_nat (List.length row) = cols) a.

Inductive pyval : Type :=
| PyInt (z : Z)
| PyFloat (q : Q)
| PyStr (s : string)
| PyList (l : list pyval)
| PyDict (d : list (string * pyval))
| PyNdarray (a : ndarray)
| PyObject (type_name : string).

(** Both [raise NotImplementedError] statements of the script raise the
    same class; the traceback tells them apart by the line of the
    [raise]. *)
Inductive exn : Type :=
| NotImplementedError (line : nat)
| TypeError (type_name : string).

Definition raised_in_settings : exn := NotImplementedError 59.
Definition raised_in_dispatch : exn := NotImplementedError 141.

Inductive Result (A : Type) : Type :=
| Ok (a : A)
| Raise (e : exn).
Arguments Ok {A} a.
Arguments Raise {A} e.

(** ** Reference directions *)

Module RefDirs.

(** [lattice k beta]: the points with [k+1] natural coordinates that
    sum to [beta], in the order the recursion visits them. *)
Fixpoint lattice (k beta : nat) : list (list nat) :=
  match k with
  | O => [[beta]]
  | S k' =>
      flat_map (fun i => map (cons i) (lattice k' (beta - i)))
               (seq 0 (S beta))
  end.

Definition ratio (den : nat) (num : nat) : Q :=
  Z.of_nat num # Pos.of_nat den.

(** Modelled from the spec: [pymoo.util.ref_dirs.get_reference_directions]
    is not part of this repository.  The spec describes it as a
    deterministic simplex-partition scheme, a uniform lattice over the
    objective simplex parameterized by a partition count, with
    C(partitions+objectives-1, objectives-1) directions: every vector
    whose coordinates are multiples of 1/partitions and sum to one. *)
Definition das_dennis (n_partitions n_dim : nat) : ndarray :=
  match n_partitions with
  | O => [repeat (1 # Pos.of_nat n_dim) n_dim]
  | S _ => map (map (ratio n_partitions)) (lattice (pred n_dim) n_partitions)
  end.

(** Modelled from the spec: the script only ever asks for the
    "das-dennis" scheme; any other scheme name is outside the model and
    yields no direction. *)
Definition get_reference_directions
    (name : string) (n_dim : Z) (n_partitions : Z) : ndarray :=
  if (name =? "das-dennis")%string
  then das_dennis (Z.to_nat n_partitions) (Z.to_nat n_dim)
  else [].

(** Pascal's triangle, for the simplex-lattice count formula. *)
Fixpoint binomial (n k : nat) : nat :=
  match n, k with
  | _, O => 1
  | O, S _ => 0
  | S n', S k' => (binomial n' k' + binomial n' k)%nat
  end.

End RefDirs.

(** ** Settings resolution: [get_benchmark_settings] *)

Definition Settings : Type := Z * Z * ndarray.

Definition get_benchmark_settings (n_obj : Z) : Result Settings :=
  let n_gen := 100 in
  let resolved :=
    if n_obj =? 2 then
      Ok (RefDirs.get_reference_directions "das-dennis" n_obj 99)
    else if n_obj =? 3 then
      Ok (RefDirs.get_reference_directions "das-dennis" n_obj 13)
    else if n_obj =? 4 then
      Ok (RefDirs.get_reference_directions "das-dennis" n_obj 7)
    else
      Raise raised_in_settings in
  match resolved with
  | Ok ref_dirs =>
      let pop_size := shape0 ref_dirs in
      Ok (pop_size, n_gen, ref_dirs)
  | Raise e => Raise e
  end.

(** ** Genetic operators and the three optimizer constructors *)

Inductive Repair : Type := RoundingRepair.
Inductive VType : Type := vtype_int | vtype_float.
Inductive Sampling : Type := IntegerRandomSampling.

Record SBX : Type := mkSBX {
  sbx_prob : Q;
  sbx_eta : Q;
  sbx_repair : Repair;
  sbx_vtype : VType
}.

Record PM : Type := mkPM {
  pm_prob : Q;
  pm_eta : Q;
  pm_repair : Repair;
  pm_vtype : VType
}.

(** A Python default argument: [None] stands for "not passed". *)
Definition default {A : Type} (d : A) (arg : option A) : A :=
  match arg with
  | Some v => v
  | None => d
  end.

Definition get_genetic_operator (crx_prob crx_eta mut_prob mut_eta : option Q)
  : Sampling * SBX * PM :=
  let crx_prob := default 1.0%Q crx_prob in
  let crx_eta := default 30.0%Q crx_eta in
  let mut_prob := default 0.9%Q mut_prob in
  let mut_eta := default 20.0%Q mut_eta in
  let sampling := IntegerRandomSampling in
  let crossover := mkSBX crx_prob crx_eta RoundingRepair vtype_int in
  let mutation := mkPM mut_prob mut_eta RoundingRepair vtype_int in
  (sampling, crossover, mutation).

(** The optimizer objects, with exactly the keyword arguments the
    script passes to each pymoo constructor. *)
Inductive Algorithm : Type :=
| NSGA2 (pop_size : Z) (sampling : Sampling) (crossover : SBX)
        (mutation : PM) (eliminate_duplicates : bool)
| MOEAD (ref_dirs : ndarray) (n_neighbors : Z) (prob_neighbor_mating : Q)
        (sampling : Sampling) (crossover : SBX) (mutation : PM)
| NSGA3 (pop_size : Z) (ref_dirs : ndarray) (sampling : Sampling)
        (crossover : SBX) (mutation : PM) (eliminate_duplicates : bool).

Definition nsga2 (pop_size : Z)
    (crx_prob crx_eta mut_prob mut_eta : option Q) : Algorithm :=
  let crx_prob := default 1.0%Q crx_prob in
  let crx_eta := default 30.0%Q crx_eta in
  let mut_prob := default 0.9%Q mut_prob in
  let mut_eta := default 20.0%Q mut_eta in
  let '(sampling, crossover, mutation) :=
    get_genetic_operator (Some crx_prob) (Some crx_eta)
                         (Some mut_prob) (Some mut_eta) in
  NSGA2 pop_size sampling crossover mutation true.

Definition moead (ref_dirs : ndarray)
    (crx_prob crx_eta mut_prob mut_eta : option Q)
    (neighborhood_size : option Z) (prob_neighbor_mating : option Q)
  : Algorithm :=
  let crx_prob := default 1.0%Q crx_prob in
  let crx_eta := default 20.0%Q crx_eta in
  let mut_prob := default 0.9%Q mut_prob in
  let mut_eta := default 20.0%Q mut_eta in
  let neighborhood_size := default 20 neighborhood_size in
  let prob_neighbor_mating := default 0.9%Q prob_neighbor_mating in
  let '(sampling, crossover, mutation) :=
    get_genetic_operator (Some crx_prob) (Some crx_eta)
                         (Some mut_prob) (Some mut_eta) in
  MOEAD ref_dirs neighborhood_size prob_neighbor_mating
        sampling crossover mutation.

Definition nsga3 (pop_size : Z) (ref_dirs : ndarray)
    (crx_prob crx_eta mut_prob mut_eta : option Q) : Algorithm :=
  let crx_prob := default 1.0%Q crx_prob in
  let crx_eta := default 30.0%Q crx_eta in
  let mut_prob := default 0.9%Q mut_prob in
  let mut_eta := default 20.0%Q mut_eta in
  let '(sampling, crossover, mutation) :=
    get_genetic_operator (Some crx_prob) (Some crx_eta)
                         (Some mut_prob) (Some mut_eta) in
  NSGA3 pop_size ref_dirs sampling crossover mutation true.

(** The [eliminate_duplicates] keyword as passed by the script; [None]
    when the constructor call does not pass it at all. *)
Definition eliminate_duplicates_of (a : Algorithm) : option bool :=
  match a with
  | NSGA2 _ _ _ _ d => Some d
  | MOEAD _ _ _ _ _ _ => None
  | NSGA3 _ _ _ _ _ d => Some d
  end.

(** ** JSON serialization: [json.dump] with [cls=NumpyEncoder] *)

Inductive json : Type :=
| JInt (z : Z)
| JFloat (q : Q)
| JString (s : string)
| JArray (items : list json)
| JObject (members : list (string * json)).

(** [ndarray.tolist()]: nested lists of Python floats. *)
Definition tolist (a : ndarray) : pyval :=
  PyList (map (fun row => PyList (map PyFloat row)) a).

(** [json.JSONEncoder.default]: always raises [TypeError]. *)
Definition type_name_of (obj : pyval) : string :=
  match obj with
  | PyInt _ => "int"
  | PyFloat _ => "float"
  | PyStr _ => "str"
  | PyList _ => "list"
  | PyDict _ => "dict"
  | PyNdarray _ => "ndarray"
  | PyObject t => t
  end.

Definition JSONEncoder_default (obj : pyval) : Result pyval :=
  Raise (TypeError (type_name_of obj)).

Module NumpyEncoder.

Definition default (obj : pyval) : Result pyval :=
  match obj with
  | PyNdarray a => Ok (tolist a)
  | _ => JSONEncoder_default obj
  end.

End NumpyEncoder.

Section Encoder.

(** The hook that the encoder calls on a value it cannot serialize
    natively ([cls.default]). *)
Variable hook : pyval -> Result pyval.

(** The values [json] serializes by itself; any other value raises. *)
Fixpoint encode_native (v : pyval) : Result json :=
  match v with
  | PyInt z => Ok (JInt z)
  | PyFloat q => Ok (JFloat q)
  | PyStr s => Ok (JString s)
  | PyList l =>
      let fix items (l : list pyval) : Result (list json) :=
        match l with
        | [] => Ok []
        | x :: rest =>
            match encode_native x with
            | Ok j =>
                match items rest with
                | Ok js => Ok (j :: js)
                | Raise e => Raise e
                end
            | Raise e => Raise e
            end
        end in
      match items l with
      | Ok js => Ok (JArray js)
      | Raise e => Raise e
      end
  | PyDict d =>
      let fix members (d : list (string * pyval))
        : Result (list (string * json)) :=
        match d with
        | [] => Ok []
        | (k, x) :: rest =>
            match encode_native x with
            | Ok j =>
                match members rest with
                | Ok js => Ok ((k, j) :: js)
                | Raise e => Raise e
                end
            | Raise e => Raise e
            end
        end in
      match members d with
      | Ok js => Ok (JObject js)
      | Raise e => Raise e
      end
  | PyNdarray _ | PyObject _ => Raise (TypeError (type_name_of v))
  end.

(** The encoder with its hook.  What the hook returns is encoded in
    turn; for [NumpyEncoder.default] that is the output of [tolist],
    nested lists of floats, which need no further hook call. *)
Fixpoint encode (v : pyval) : Result json :=
  match v with
  | PyInt z => Ok (JInt z)
  | PyFloat q => Ok (JFloat q)
  | PyStr s => Ok (JString s)
  | PyList l =>
      let fix items (l : list pyval) : Result (list json) :=
        match l with
        | [] => Ok []
        | x :: rest =>
            match encode x with
            | Ok j =>
                match items rest with
                | Ok js => Ok (j :: js)
                | Raise e => Raise e
                end
            | Raise e => Raise e
            end
        end in
      match items l with
      | Ok js => Ok (JArray js)
      | Raise e => Raise e
      end
  | PyDict d =>
      let fix members (d : list (string * pyval))
        : Result (list (string * json)) :=
        match d with
        | [] => Ok []
        | (k, x) :: rest =>
            match encode x with
            | Ok j =>
                match members rest with
                | Ok js => Ok ((k, j) :: js)
                | Raise e => Raise e
                end
            | Raise e => Raise e
            end
        end in
      match members d with
      | Ok js => Ok (JObject js)
      | Raise e => Raise e
      end
  | PyNdarray _ | PyObject _ =>
      match hook v with
      | Ok v' => encode_native v'
      | Raise e => Raise e
      end
  end.

End Encoder.

Definition json_dump (obj : pyval) : Result json :=
  encode NumpyEncoder.default obj.

(** One entry of [experiment_stats]: the dict [run_stats] with its
    three keys, in insertion order. *)
Record RunStats : Type := mkRunStats {
  run : Z;
  F : ndarray;
  HV : Q
}.

Definition run_stats_dict (st : RunStats) : pyval :=
  PyDict [("run", PyInt (run st)); ("F", PyNdarray (F st)); ("HV", PyFloat (HV st))].

Definition json_matrix (a : ndarray) : json :=
  JArray (map (fun row => JArray (map JFloat row)) a).

Definition json_run_stats (st : RunStats) : json :=
  JObject [("run", JInt (run st)); ("F", json_matrix (F st)); ("HV", JFloat (HV st))].

(** ** Collaborators: the benchmark suite and the optimizer engine *)

(** What the script reads of an evoxbench benchmark object. *)
Record Benchmark : Type := mkBenchmark {
  search_space_n_var : Z;
  search_space_lb : list Z;
  search_space_ub : list Z;
  evaluator_n_objs : Z;
  evaluate : list Candidate -> bool -> ndarray;
  calc_perf_indicator : list Candidate -> string -> Q
}.

(** [In1KMOPProblem]: the pymoo problem built around a benchmark. *)
Record Problem : Type := mkProblem {
  n_var : Z;
  n_obj : Z;
  n_constr : Z;
  xl : list Z;
  xu : list Z;
  benchmark : Benchmark
}.

Definition In1KMOPProblem (benchmark : Benchmark) : Problem :=
  {| n_var := search_space_n_var benchmark;
     n_obj := evaluator_n_objs benchmark;
     n_constr := 0;
     xl := search_space_lb benchmark;
     xu := search_space_ub benchmark;
     benchmark := benchmark |}.

(** A run of the optimizer engine, seen from the script: it asks the
    problem to evaluate batches of candidates, as many times as it
    likes, and finally returns its result set [res.X]. *)
Inductive Search : Type :=
| Finished (X : list Candidate)
| Ask (x : list Candidate) (next : ndarray -> Search).

(** The world the script runs in: the benchmark suite [in1kmop] and the
    engine behind [minimize].  The engine is randomized; its last
    argument counts the engine runs made so far, so that two runs with
    the same arguments may differ. *)
Record World : Type := mkWorld {
  in1kmop : Z -> Benchmark;
  engine : Problem -> Algorithm -> Z -> nat -> Search
}.

(** ** The script's state and effects *)

(** The calls and constructions the script performs, as observed from
    outside.  [pid] and [r] are the loop variables in scope. *)
Inductive Event : Type :=
| EvBenchmark (pid : Z)
| EvProblem (pid : Z)
| EvSettings (pid : Z) (n_obj : Z)
| EvPrint (pop_size : Z)
| EvBuild (pid r : Z) (algorithm : Algorithm)
| EvMinimize (pid r : Z) (n_gen : Z)
| EvEvaluate (x : list Candidate) (true_eval : bool)
| EvIndicator (x : list Candidate) (name : string)
| EvDump (filename : string) (content : json).

Record State : Type := mkState {
  experiment_stats : list RunStats;
  files : list (string * json);
  events : list Event;            (* newest first *)
  engine_calls : nat
}.

Definition initial : State :=
  {| experiment_stats := []; files := []; events := []; engine_calls := 0 |}.

(** The observed events in the order they happened. *)
Definition trace (s : State) : list Event := rev (events s).

Definition M (A : Type) : Type := State -> Result A * State.

Definition ret {A : Type} (a : A) : M A := fun s => (Ok a, s).

Definition bind {A B : Type} (m : M A) (k : A -> M B) : M B :=
  fun s =>
    match m s with
    | (Ok a, s') => k a s'
    | (Raise e, s') => (Raise e, s')
    end.

Notation "x <- m ;; k" := (bind m (fun x => k))
  (at level 61, m at next level, right associativity).
Notation "m ;;; k" := (bind m (fun _ => k))
  (at level 61, right associativity).

Definition lift {A : Type} (r : Result A) : M A := fun s => (r, s).

Definition log (e : Event) : M unit :=
  fun s =>
    (Ok tt, {| experiment_stats := experiment_stats s;
               files := files s;
               events := e :: events s;
               engine_calls := engine_calls s |}).

Definition set_experiment_stats (l : list RunStats) : M unit :=
  fun s =>
    (Ok tt, {| experiment_stats := l;
               files := files s;
               events := events s;
               engine_calls := engine_calls s |}).

(** [experiment_stats.append(run_stats)] *)
Definition append_stats (st : RunStats) : M unit :=
  fun s =>
    (Ok tt, {| experiment_stats := experiment_stats s ++ [st];
               files := files s;
               events := events s;
               engine_calls := engine_calls s |}).

(** [open(name, 'w')] creates the file or replaces its content. *)
Definition write_file (name : string) (content : json)
    (fs : list (string * json)) : list (string * json) :=
  (name, content)
    :: filter (fun entry => negb (fst entry =? name)%string) fs.

Fixpoint read_file (name : string) (fs : list (string * json)) : option json :=
  match fs with
  | [] => None
  | (n, c) :: rest => if (n =? name)%string then Some c else read_file name rest
  end.

Definition store_file (name : string) (content : json) : M unit :=
  fun s =>
    (Ok tt, {| experiment_stats := experiment_stats s;
               files := write_file name content (files s);
               events := EvDump name content :: events s;
               engine_calls := engine_calls s |}).

Definition next_engine_run : M nat :=
  fun s =>
    (Ok (engine_calls s),
     {| experiment_stats := experiment_stats s;
        files := files s;
        events := events s;
        engine_calls := S (engine_calls s) |}).

Fixpoint for_each {A : Type} (l : list A) (body : A -> M unit) : M unit :=
  match l with
  | [] => ret tt
  | a :: rest => body a ;;; for_each rest body
  end.

(** Python's [range(lo, hi)]. *)
Definition range (lo hi : Z) : list Z :=
  map (fun i => lo + Z.of_nat i) (seq 0 (Z.to_nat (hi - lo))).

(** ** The problem wrapper and the engine run *)

(** [benchmark.evaluate(x, true_eval=flag)] *)
Definition call_evaluate (b : Benchmark) (x : list Candidate) (flag : bool)
  : M ndarray :=
  log (EvEvaluate x flag) ;;; ret (evaluate b x flag).

(** [In1KMOPProblem._evaluate]: the value stored in [out["F"]]. *)
Definition In1KMOPProblem_evaluate (self : Problem) (x : list Candidate)
  : M ndarray :=
  F <- call_evaluate (benchmark self) x true ;;
  ret F.

(** Answer every request of the engine through the problem's
    [_evaluate], until the engine returns [res.X]. *)
Fixpoint answer (problem : Problem) (p : Search) : M (list Candidate) :=
  match p with
  | Finished X => ret X
  | Ask x next =>
      F <- In1KMOPProblem_evaluate problem x ;;
      answer problem (next F)
  end.

Section Driver.

Variable w : World.

(** [minimize(problem, algorithm, ('n_gen', n_gen), verbose=True)];
    the value is [res.X]. *)
Definition minimize (problem : Problem) (algorithm : Algorithm) (n_gen : Z)
  : M (list Candidate) :=
  k <- next_engine_run ;;
  answer problem (engine w problem algorithm n_gen k).

(** ** The [__main__] block *)

(** The dispatch on [args.moea]. *)
Definition select_algorithm (moea : string) (pop_size : Z) (ref_dirs : ndarray)
  : Result Algorithm :=
  if (moea =? "nsga2")%string then
    Ok (nsga2 pop_size None None None None)
  else if (moea =? "moead")%string then
    Ok (moead ref_dirs None None None None None None)
  else if (moea =? "nsga3")%string then
    Ok (nsga3 pop_size ref_dirs None None None None)
  else
    Raise raised_in_dispatch.

Definition string_of_Z (z : Z) : string :=
  NilZero.string_of_int (Z.to_int z).

(** ['in1kmop{}_{}.json'.format(pid, args.moea)] *)
Definition report_name (pid : Z) (moea : string) : string :=
  ("in1kmop" ++ string_of_Z pid ++ "_" ++ moea ++ ".json")%string.

(** The body of the inner loop, for one [pid] and one [r].  The
    [_DEBUG] block is dead code ([_DEBUG = False]) and is left out. *)
Definition one_run (moea : string) (pid r : Z) : M unit :=
  log (EvBenchmark pid) ;;;
  let benchmark := in1kmop w pid in
  log (EvProblem pid) ;;;
  let problem := In1KMOPProblem benchmark in
  log (EvSettings pid (n_obj problem)) ;;;
  settings <- lift (get_benchmark_settings (n_obj problem)) ;;
  let '(pop_size, n_gen, ref_dirs) := settings in
  log (EvPrint pop_size) ;;;
  algorithm <- lift (select_algorithm moea pop_size ref_dirs) ;;
  log (EvBuild pid r algorithm) ;;;
  log (EvMinimize pid r n_gen) ;;;
  X <- minimize problem algorithm n_gen ;;
  F <- call_evaluate benchmark X true ;;
  log (EvIndicator X "hv") ;;;
  let hv := calc_perf_indicator benchmark X "hv" in
  append_stats {| run := r; F := F; HV := hv |}.

(** [json.dump(experiment_stats, fp, indent=4, cls=NumpyEncoder)] into
    the file named after [pid].  The file system is taken to accept the
    name, as it does the plain names that the three known families
    give. *)
Definition dump_report (moea : string) (pid : Z) : M unit :=
  fun s =>
    match json_dump (PyList (map run_stats_dict (experiment_stats s))) with
    | Ok content => store_file (report_name pid moea) content s
    | Raise e => (Raise e, s)
    end.

Definition one_problem (moea : string) (runs : Z) (pid : Z) : M unit :=
  for_each (range 1 (runs + 1)) (fun r => one_run moea pid r) ;;;
  dump_report moea pid.

Definition main (moea : string) (runs : Z) : M unit :=
  set_experiment_stats [] ;;;
  for_each (range 1 10) (one_problem moea runs).

(** The script run from a fresh process. *)
Definition run_main (moea : string) (runs : Z) : Result unit * State :=
  main moea runs initial.

End Driver.

(** ** Vocabulary for the properties *)

Definition supported (n_obj : Z) : Prop := n_obj = 2 \/ n_obj = 3 \/ n_obj = 4.

Definition known_family (moea : string) : Prop :=
  moea = "nsga2" \/ moea = "moead" \/ moea = "nsga3".

(** What an engine run returns and which batches it asks about, when
    every request is answered by the authoritative evaluation of [b]. *)
Fixpoint outcome (b : Benchmark) (p : Search) : list Candidate :=
  match p with
  | Finished X => X
  | Ask x next => outcome b (next (evaluate b x true))
  end.

Fixpoint asked (b : Benchmark) (p : Search) : list (list Candidate) :=
  match p with
  | Finished _ => []
  | Ask x next => x :: asked b (next (evaluate b x true))
  end.

(** The result set [res.X] of the engine run number [k] on problem
    [pid] with optimizer [algorithm]. *)
Definition result_set (w : World) (pid : Z) (algorithm : Algorithm)
    (n_gen : Z) (k : nat) : list Candidate :=
  let b := in1kmop w pid in
  outcome b (engine w (In1KMOPProblem b) algorithm n_gen k).

(** The [run_stats] of repeat [r] on problem [pid], when it is the
    engine run number [k]. *)
Definition stats_of_run (w : World) (pid r : Z) (algorithm : Algorithm)
    (n_gen : Z) (k : nat) : RunStats :=
  let b := in1kmop w pid in
  let X := result_set w pid algorithm n_gen k in
  {| run := r; F := evaluate b X true; HV := calc_perf_indicator b X "hv" |}.

Definition count (f : Event -> bool) (l : list Event) : nat :=
  List.length (filter f l).

Definition is_benchmark (pid : Z) (e : Event) : bool :=
  match e with EvBenchmark p => p =? pid | _ => false end.

Definition is_problem (pid : Z) (e : Event) : bool :=
  match e with EvProblem p => p =? pid | _ => false end.

Definition is_settings (pid : Z) (e : Event) : bool :=
  match e with EvSettings p _ => p =? pid | _ => false end.

Definition is_build (pid r : Z) (e : Event) : bool :=
  match e with EvBuild p q _ => (p =? pid) && (q =? r) | _ => false end.

Definition is_build_for (pid : Z) (e : Event) : bool :=
  match e with EvBuild p _ _ => p =? pid | _ => false end.

Definition is_construction (e : Event) : bool :=
  match e with
  | EvBenchmark _ | EvProblem _ | EvSettings _ _ | EvBuild _ _ _ => true
  | _ => false
  end.

(** An event the script can only produce on a particular path: an
    optimizer is built or run only after settings resolution and the
    dispatch on the family both succeeded for that problem, and the
    benchmark is only evaluated authoritatively. *)
Definition legal (w : World) (moea : string) (e : Event) : Prop :=
  match e with
  | EvBuild pid _ algorithm =>
      exists pop_size n_gen ref_dirs,
        get_benchmark_settings (evaluator_n_objs (in1kmop w pid))
        = Ok (pop_size, n_gen, ref_dirs)
        /\ select_algorithm moea pop_size ref_dirs = Ok algorithm
  | EvMinimize pid _ n_gen =>
      exists pop_size ref_dirs algorithm,
        get_benchmark_settings (evaluator_n_objs (in1kmop w pid))
        = Ok (pop_size, n_gen, ref_dirs)
        /\ select_algorithm moea pop_size ref_dirs = Ok algorithm
  | EvEvaluate _ true_eval => true_eval = true
  | _ => True
  end.

(** The events of one successful pass through the loop body, newest
    first. *)
Definition run_events (w : World) (pid r : Z) (algorithm : Algorithm)
    (pop_size n_gen : Z) (k : nat) : list Event :=
  let b := in1kmop w pid in
  let X := result_set w pid algorithm n_gen k in
  EvIndicator X "hv"
    :: EvEvaluate X true
    :: rev (map (fun x => EvEvaluate x true)
                (asked b (engine w (In1KMOPProblem b) algorithm n_gen k)))
    ++ [EvMinimize pid r n_gen; EvBuild pid r algorithm; EvPrint pop_size;
        EvSettings pid (evaluator_n_objs b); EvProblem pid; EvBenchmark pid].

(** [s'] is reached from [s] by the script: events were added, all of
    them satisfying [P], and [experiment_stats] was only appended to. *)
Definition extends (P : Event -> Prop) (s s' : State) : Prop :=
  (exists evs, events s' = evs ++ events s /\ Forall P evs)
  /\ (exists new, experiment_stats s' = experiment_stats s ++ new).

(** *** The state the script reaches when nothing raises *)

(** The settings and the optimizer of problem [pid]; the fallbacks are
    never used where both dispatches succeed. *)
Definition resolved (w : World) (pid : Z) : Settings :=
  match get_benchmark_settings (evaluator_n_objs (in1kmop w pid)) with
  | Ok settings => settings
  | Raise _ => (0, 0, [])
  end.

Definition chosen (w : World) (moea : string) (pid : Z) : Algorithm :=
  let '(pop_size, _, ref_dirs) := resolved w pid in
  match select_algorithm moea pop_size ref_dirs with
  | Ok algorithm => algorithm
  | Raise _ => nsga2 pop_size None None None None
  end.

(** Statistics and events (newest first) of the repeats [rs] of one
    problem, the first of them being engine run number [k]. *)
Fixpoint repeats_stats (w : World) (pid : Z) (algorithm : Algorithm)
    (n_gen : Z) (rs : list Z) (k : nat) : list RunStats :=
  match rs with
  | [] => []
  | r :: rest =>
      stats_of_run w pid r algorithm n_gen k
        :: repeats_stats w pid algorithm n_gen rest (S k)
  end.

Fixpoint repeats_events (w : World) (pid : Z) (algorithm : Algorithm)
    (pop_size n_gen : Z) (rs : list Z) (k : nat) : list Event :=
  match rs with
  | [] => []
  | r :: rest =>
      repeats_events w pid algorithm pop_size n_gen rest (S k)
        ++ run_events w pid r algorithm pop_size n_gen k
  end.

Definition after_problem (w : World) (moea : string) (runs : Z)
    (s : State) (pid : Z) : State :=
  let '(pop_size, n_gen, _) := resolved w pid in
  let algorithm := chosen w moea pid in
  let rs := range 1 (runs + 1) in
  let stats :=
    experiment_stats s
      ++ repeats_stats w pid algorithm n_gen rs (engine_calls s) in
  let content := JArray (map json_run_stats stats) in
  {| experiment_stats := stats;
     files := write_file (report_name pid moea) content (files s);
     events :=
       EvDump (report_name pid moea) content
         :: repeats_events w pid algorithm pop_size n_gen rs (engine_calls s)
         ++ events s;
     engine_calls := (List.length rs + engine_calls s)%nat |}.

Definition after_problems (w : World) (moea : string) (runs : Z)
    (s : State) (pids : list Z) : State :=
  fold_left (after_problem w moea runs) pids s.

(** The objects one pass through the loop body constructs (newest
    first): the benchmark, the problem around it, the settings and the
    optimizer. *)
Definition constructions (w : World) (moea : string) (pid r : Z)
  : list Event :=
  [EvBuild pid r (chosen w moea pid);
   EvSettings pid (evaluator_n_objs (in1kmop w pid));
   EvProblem pid;
   EvBenchmark pid].

(** ** A small world to run the script in

    Every problem has two objectives, five variables and bounds [0,9].
    The objective values of a candidate are the problem id and the sum
    of the candidate's entries; the indicator is the size of the set it
    is given.  The engine asks about two candidates and returns a
    single one. *)
Module Demo.

Definition bench (pid : Z) : Benchmark :=
  {| search_space_n_var := 5;
     search_space_lb := [0; 0; 0; 0; 0];
     search_space_ub := [9; 9; 9; 9; 9];
     evaluator_n_objs := 2;
     evaluate := fun X _ =>
       map (fun x => [inject_Z pid; inject_Z (fold_right Z.add 0 x)]) X;
     calc_perf_indicator := fun X _ => inject_Z (Z.of_nat (List.length X)) |}.

Definition world : World :=
  {| in1kmop := bench;
     engine := fun _ _ _ k =>
       Ask [[0; 0; 0; 0; 0]; [1; 1; 1; 1; 1]]
           (fun _ => Finished [[Z.of_nat k; 0; 0; 0; 0]]) |}.

(** The same suite, but problem 3 has five objectives. *)
Definition bench5 (pid : Z) : Benchmark :=
  if pid =? 3 then
    {| search_space_n_var := 5;
       search_space_lb := [0; 0; 0; 0; 0];
       search_space_ub := [9; 9; 9; 9; 9];
       evaluator_n_objs := 5;
       evaluate := evaluate (bench pid);
       calc_perf_indicator := calc_perf_indicator (bench pid) |}
  else bench pid.

Definition world5 : World :=
  {| in1kmop := bench5; engine := engine world |}.

End Demo.

(** ** Vocabulary for the properties of the rest of the script *)

(** The cardinality an optimizer is handed: its [pop_size] argument,
    or, for MOEAD which takes none, the number of its reference
    directions. *)
Definition size_argument (a : Algorithm) : Z :=
  match a with
  | NSGA2 pop_size _ _ _ _ => pop_size
  | MOEAD ref_dirs _ _ _ _ _ => shape0 ref_dirs
  | NSGA3 pop_size _ _ _ _ _ => pop_size
  end.

Definition is_any_build (e : Event) : bool :=
  match e with EvBuild _ _ _ => true | _ => false end.

Definition is_any_minimize (e : Event) : bool :=
  match e with EvMinimize _ _ _ => true | _ => false end.

Definition is_evaluate (e : Event) : bool :=
  match e with EvEvaluate _ _ => true | _ => false end.

(** One entry per engine run: as many optimizers built and engine runs
    started as there are entries in [experiment_stats]. *)
Definition balanced (s : State) : Prop :=
  count is_any_build (events s) = engine_calls s
  /\ count is_any_minimize (events s) = engine_calls s
  /\ List.length (experiment_stats s) = engine_calls s.

(** A suite whose first problem has a single objective. *)
Module DemoOne.

Definition bench (pid : Z) : Benchmark :=
  if pid =? 1 then
    {| search_space_n_var := 5;
       search_space_lb := [0; 0; 0; 0; 0];
       search_space_ub := [9; 9; 9; 9; 9];
       evaluator_n_objs := 1;
       evaluate := evaluate (Demo.bench pid);
       calc_perf_indicator := calc_perf_indicator (Demo.bench pid) |}
  else Demo.bench pid.

Definition world : World :=
  {| in1kmop := bench; engine := engine Demo.world |}.

End DemoOne.

(** * Properties *)

(** ** The simplex lattice *)

Lemma binomial_lt (n k : nat) : (n < k)%nat -> RefDirs.binomial n k = 0%nat.
Proof.
  revert k; induction n as [|n IH]; intros [|k] H; simpl; try lia.
  rewrite !IH by lia. reflexivity.
Qed.

Lemma binomial_diag (n : nat) : RefDirs.binomial n n = 1%nat.
Proof.
  induction n as [|n IH]; simpl; [reflexivity|].
  rewrite IH, binomial_lt by lia. reflexivity.
Qed.

(** Summing one column of Pascal's triangle gives the entry below and
    to the right of its last term. *)
Lemma binomial_column_sum (k beta : nat) :
  list_sum (map (fun i => RefDirs.binomial (beta - i + k) k) (seq 0 (S beta)))
  = RefDirs.binomial (S (beta + k)) (S k).
Proof.
  induction beta as [|beta IH].
  - simpl. rewrite binomial_diag, binomial_lt by lia. lia.
  - change (seq 0 (S (S beta))) with (0%nat :: seq 1 (S beta)).
    rewrite <- seq_shift, map_cons, map_map.
    rewrite (map_ext _ (fun i => RefDirs.binomial (beta - i + k) k))
      by (intros i; f_equal; lia).
    unfold list_sum in *. cbn [fold_right].
    rewrite IH.
    replace (S beta - 0 + k)%nat with (S (beta + k)) by lia.
    replace (S (S beta + k)) with (S (S (beta + k))) by lia.
    cbn [RefDirs.binomial]. lia.
Qed.

(** The simplex-lattice count formula: [k+1] coordinates summing to
    [beta] can be chosen in C(beta+k, k) ways. *)
Lemma lattice_count (k beta : nat) :
  List.length (RefDirs.lattice k beta) = RefDirs.binomial (beta + k) k.
Proof.
  revert beta; induction k as [|k IH]; intros beta.
  - simpl. destruct (beta + 0)%nat; reflexivity.
  - cbn [RefDirs.lattice].
    rewrite length_flat_map.
    rewrite (map_ext _ (fun i => RefDirs.binomial (beta - i + k) k))
      by (intros i; rewrite length_map; apply IH).
    rewrite binomial_column_sum.
    f_equal. lia.
Qed.

(** Every lattice point has [k+1] coordinates, and they sum to [beta]. *)
Lemma lattice_points (k beta : nat) :
  Forall (fun pt => List.length pt = S k /\ list_sum pt = beta)
         (RefDirs.lattice k beta).
Proof.
  revert beta; induction k as [|k IH]; intros beta.
  - simpl. constructor; [split; [reflexivity | simpl; lia] | constructor].
  - cbn [RefDirs.lattice].
    apply Forall_flat_map, Forall_forall.
    intros i Hi. apply in_seq in Hi.
    apply Forall_map.
    eapply Forall_impl; [|apply IH].
    intros pt [Hlen Hsum]. unfold list_sum in *. simpl. split; lia.
Qed.

Lemma das_dennis_count (n_partitions n_dim : nat) :
  (0 < n_partitions)%nat -> (0 < n_dim)%nat ->
  List.length (RefDirs.das_dennis n_partitions n_dim)
  = RefDirs.binomial (n_partitions + n_dim - 1) (n_dim - 1).
Proof.
  intros Hp Hd. unfold RefDirs.das_dennis.
  destruct n_partitions as [|p]; [lia|].
  rewrite length_map, lattice_count.
  destruct n_dim as [|d]; [lia|]. cbn [pred].
  replace (S p + S d - 1)%nat with (S p + d)%nat by lia.
  replace (S d - 1)%nat with d by lia.
  reflexivity.
Qed.

(** ** Settings resolution *)

Lemma settings_for_two_objectives :
  get_benchmark_settings 2 = Ok (100, 100, RefDirs.das_dennis 99 2).
Proof.
  assert (H2 : shape0 (RefDirs.das_dennis 99 2) = 100).
  { unfold shape0. rewrite das_dennis_count by lia. reflexivity. }
  change (get_benchmark_settings 2)
    with (Ok (A := Settings)
             (shape0 (RefDirs.das_dennis 99 2), 100,
              RefDirs.das_dennis 99 2)).
  rewrite H2. reflexivity.
Qed.

(** C3: for each objective count 2, 3 and 4, [get_benchmark_settings]
    returns the generation budget 100, the das-dennis reference
    directions for 99, 13 and 7 partitions respectively, and as
    population size the number of those directions, which is 100, 105
    and 120, the values of C(100,1), C(15,2) and C(10,3). *)
Theorem settings_of_supported_counts :
  (get_benchmark_settings 2 = Ok (100, 100, RefDirs.das_dennis 99 2)
   /\ shape0 (RefDirs.das_dennis 99 2) = 100
   /\ RefDirs.binomial 100 1 = 100%nat)
  /\ (get_benchmark_settings 3 = Ok (105, 100, RefDirs.das_dennis 13 3)
      /\ shape0 (RefDirs.das_dennis 13 3) = 105
      /\ RefDirs.binomial 15 2 = 105%nat)
  /\ (get_benchmark_settings 4 = Ok (120, 100, RefDirs.das_dennis 7 4)
      /\ shape0 (RefDirs.das_dennis 7 4) = 120
      /\ RefDirs.binomial 10 3 = 120%nat).
Proof.
  assert (H2 : shape0 (RefDirs.das_dennis 99 2) = 100).
  { unfold shape0. rewrite das_dennis_count by lia. reflexivity. }
  assert (H3 : shape0 (RefDirs.das_dennis 13 3) = 105).
  { unfold shape0. rewrite das_dennis_count by lia. reflexivity. }
  assert (H4 : shape0 (RefDirs.das_dennis 7 4) = 120).
  { unfold shape0. rewrite das_dennis_count by lia. reflexivity. }
  unfold get_benchmark_settings, RefDirs.get_reference_directions.
  cbn [Z.eqb Pos.eqb String.eqb Ascii.eqb Bool.eqb Z.to_nat Pos.to_nat
       Pos.iter_op Nat.add].
  change (Pos.to_nat 99) with 99%nat.
  change (Pos.to_nat 13) with 13%nat.
  change (Pos.to_nat 7) with 7%nat.
  rewrite H2, H3, H4.
  repeat split; reflexivity.
Qed.

(** ** The optimizer constructors *)

(** C6: the three families as the script builds them.  Crossover
    probability 1.0 everywhere; crossover distribution index 30 for
    nsga2 and nsga3 but 20 for moead; mutation probability 0.9 and
    mutation distribution index 20 everywhere; moead gets neighborhood
    size 20 and neighbor-mating probability 0.9 and is built without
    any duplicate elimination, the other two with it. *)
Theorem factory_defaults (pop_size : Z) (ref_dirs : ndarray) :
  select_algorithm "nsga2" pop_size ref_dirs
  = Ok (NSGA2 pop_size IntegerRandomSampling
              (mkSBX 1.0 30.0 RoundingRepair vtype_int)
              (mkPM 0.9 20.0 RoundingRepair vtype_int) true)
  /\ select_algorithm "moead" pop_size ref_dirs
     = Ok (MOEAD ref_dirs 20 0.9 IntegerRandomSampling
                 (mkSBX 1.0 20.0 RoundingRepair vtype_int)
                 (mkPM 0.9 20.0 RoundingRepair vtype_int))
  /\ select_algorithm "nsga3" pop_size ref_dirs
     = Ok (NSGA3 pop_size ref_dirs IntegerRandomSampling
                 (mkSBX 1.0 30.0 RoundingRepair vtype_int)
                 (mkPM 0.9 20.0 RoundingRepair vtype_int) true)
  /\ eliminate_duplicates_of (nsga2 pop_size None None None None) = Some true
  /\ eliminate_duplicates_of (moead ref_dirs None None None None None None)
     = None
  /\ eliminate_duplicates_of (nsga3 pop_size ref_dirs None None None None)
     = Some true.
Proof.
  repeat split; reflexivity.
Qed.

(** The defaults are only defaults: an argument that is passed wins. *)
Lemma nsga2_override (pop_size : Z) (crx_prob crx_eta mut_prob mut_eta : Q) :
  nsga2 pop_size (Some crx_prob) (Some crx_eta) (Some mut_prob) (Some mut_eta)
  = NSGA2 pop_size IntegerRandomSampling
          (mkSBX crx_prob crx_eta RoundingRepair vtype_int)
          (mkPM mut_prob mut_eta RoundingRepair vtype_int) true.
Proof. reflexivity. Qed.

(** ** Serialization of the statistics *)

Lemma encode_native_tolist (a : ndarray) :
  encode_native (tolist a) = Ok (json_matrix a).
Proof.
  unfold tolist, json_matrix. cbn [encode_native].
  assert (Hrow : forall row : list Q,
             encode_native (PyList (map PyFloat row))
             = Ok (JArray (map JFloat row))).
  { intros row. cbn [encode_native].
    induction row as [|q row IH]; [reflexivity|].
    cbn [map encode_native] in *.
    destruct (_ (map PyFloat row)) as [js|e] in IH |- *;
      [|discriminate].
    injection IH as ->. reflexivity. }
  induction a as [|row a IH]; [reflexivity|].
  cbn [map] in *. rewrite Hrow.
  destruct (_ (map _ a)) as [js|e] in IH |- *; [|discriminate].
  injection IH as ->. reflexivity.
Qed.

Lemma json_dump_run_stats (st : RunStats) :
  json_dump (run_stats_dict st) = Ok (json_run_stats st).
Proof.
  unfold json_dump, run_stats_dict, json_run_stats.
  cbn [encode NumpyEncoder.default]. rewrite encode_native_tolist.
  reflexivity.
Qed.

(** Dumping [experiment_stats] never raises: every entry is a dict of
    an int, an array and a float. *)
Lemma json_dump_stats (l : list RunStats) :
  json_dump (PyList (map run_stats_dict l))
  = Ok (JArray (map json_run_stats l)).
Proof.
  unfold json_dump. cbn [encode].
  induction l as [|st l IH]; [reflexivity|].
  cbn [map] in *.
  change (encode NumpyEncoder.default (run_stats_dict st))
    with (json_dump (run_stats_dict st)).
  rewrite json_dump_run_stats.
  destruct (_ (map run_stats_dict l)) as [js|e] in IH |- *; [|discriminate].
  injection IH as ->. reflexivity.
Qed.

(** ** One pass through the loop body *)

Lemma answer_eq (problem : Problem) (p : Search) (s : State) :
  answer problem p s
  = (Ok (outcome (benchmark problem) p),
     {| experiment_stats := experiment_stats s;
        files := files s;
        events := rev (map (fun x => EvEvaluate x true)
                           (asked (benchmark problem) p)) ++ events s;
        engine_calls := engine_calls s |}).
Proof.
  revert s. induction p as [X|x next IH]; intros s.
  - destruct s; reflexivity.
  - cbn [answer outcome asked map rev].
    unfold bind, In1KMOPProblem_evaluate, call_evaluate, bind, log, ret.
    rewrite IH. cbn [experiment_stats files events engine_calls].
    rewrite <- app_assoc. reflexivity.
Qed.

Section OneRun.

Variable w : World.
Variable moea : string.
Variables pid r : Z.

Let n := evaluator_n_objs (in1kmop w pid).

Lemma one_run_ok (s : State) (pop_size n_gen : Z) (ref_dirs : ndarray)
    (algorithm : Algorithm) :
  get_benchmark_settings n = Ok (pop_size, n_gen, ref_dirs) ->
  select_algorithm moea pop_size ref_dirs = Ok algorithm ->
  one_run w moea pid r s
  = (Ok tt,
     {| experiment_stats :=
          experiment_stats s
            ++ [stats_of_run w pid r algorithm n_gen (engine_calls s)];
        files := files s;
        events :=
          run_events w pid r algorithm pop_size n_gen (engine_calls s)
            ++ events s;
        engine_calls := S (engine_calls s) |}).
Proof.
  intros Hs Ha. subst n.
  unfold one_run, bind, lift, log, minimize, bind, next_engine_run.
  cbn [n_obj In1KMOPProblem experiment_stats files events engine_calls].
  rewrite Hs, Ha. rewrite answer_eq.
  unfold call_evaluate, append_stats, bind, log, ret.
  cbn [n_obj In1KMOPProblem benchmark
       experiment_stats files events engine_calls].
  unfold stats_of_run, run_events, result_set.
  cbn [app]. rewrite <- app_assoc. reflexivity.
Qed.

Lemma one_run_no_settings (s : State) (e : exn) :
  get_benchmark_settings n = Raise e ->
  one_run w moea pid r s
  = (Raise e,
     {| experiment_stats := experiment_stats s;
        files := files s;
        events := EvSettings pid n :: EvProblem pid :: EvBenchmark pid
                    :: events s;
        engine_calls := engine_calls s |}).
Proof.
  intros Hs. subst n.
  unfold one_run, bind, lift, log.
  cbn [n_obj In1KMOPProblem experiment_stats files events engine_calls].
  rewrite Hs. reflexivity.
Qed.

Lemma one_run_no_algorithm (s : State) (pop_size n_gen : Z)
    (ref_dirs : ndarray) (e : exn) :
  get_benchmark_settings n = Ok (pop_size, n_gen, ref_dirs) ->
  select_algorithm moea pop_size ref_dirs = Raise e ->
  one_run w moea pid r s
  = (Raise e,
     {| experiment_stats := experiment_stats s;
        files := files s;
        events := EvPrint pop_size :: EvSettings pid n :: EvProblem pid
                    :: EvBenchmark pid :: events s;
        engine_calls := engine_calls s |}).
Proof.
  intros Hs Ha. subst n.
  unfold one_run, bind, lift, log.
  cbn [n_obj In1KMOPProblem experiment_stats files events engine_calls].
  rewrite Hs, Ha. reflexivity.
Qed.

End OneRun.

(** ** The two dispatches *)

Lemma settings_supported (n_obj : Z) :
  supported n_obj ->
  exists ref_dirs,
    get_benchmark_settings n_obj = Ok (shape0 ref_dirs, 100, ref_dirs).
Proof.
  intros [-> | [-> | ->]]; eexists; reflexivity.
Qed.

Lemma settings_unsupported (n_obj : Z) :
  ~ supported n_obj -> get_benchmark_settings n_obj = Raise raised_in_settings.
Proof.
  intros H. unfold get_benchmark_settings, supported in *.
  destruct (Z.eqb_spec n_obj 2); [tauto|].
  destruct (Z.eqb_spec n_obj 3); [tauto|].
  destruct (Z.eqb_spec n_obj 4); [tauto|].
  reflexivity.
Qed.

Lemma settings_cases (n_obj : Z) :
  (supported n_obj /\
   exists ref_dirs,
     get_benchmark_settings n_obj = Ok (shape0 ref_dirs, 100, ref_dirs))
  \/ (~ supported n_obj /\
      get_benchmark_settings n_obj = Raise raised_in_settings).
Proof.
  unfold supported.
  destruct (Z.eq_dec n_obj 2) as [H2|H2];
    [left; split; [tauto|apply settings_supported; left; exact H2]|].
  destruct (Z.eq_dec n_obj 3) as [H3|H3];
    [left; split; [tauto|apply settings_supported; right; left; exact H3]|].
  destruct (Z.eq_dec n_obj 4) as [H4|H4];
    [left; split; [tauto|apply settings_supported; right; right; exact H4]|].
  right. split; [|apply settings_unsupported; unfold supported]; tauto.
Qed.

Lemma select_known (moea : string) (pop_size : Z) (ref_dirs : ndarray) :
  known_family moea ->
  exists algorithm, select_algorithm moea pop_size ref_dirs = Ok algorithm.
Proof.
  intros [-> | [-> | ->]]; eexists; reflexivity.
Qed.

Lemma select_unknown (moea : string) (pop_size : Z) (ref_dirs : ndarray) :
  ~ known_family moea ->
  select_algorithm moea pop_size ref_dirs = Raise raised_in_dispatch.
Proof.
  intros H. unfold select_algorithm, known_family in *.
  destruct (String.eqb_spec moea "nsga2"); [tauto|].
  destruct (String.eqb_spec moea "moead"); [tauto|].
  destruct (String.eqb_spec moea "nsga3"); [tauto|].
  reflexivity.
Qed.

Lemma select_cases (moea : string) (pop_size : Z) (ref_dirs : ndarray) :
  (known_family moea /\
   exists algorithm, select_algorithm moea pop_size ref_dirs = Ok algorithm)
  \/ (~ known_family moea /\
      select_algorithm moea pop_size ref_dirs = Raise raised_in_dispatch).
Proof.
  unfold known_family.
  destruct (string_dec moea "nsga2") as [H2|H2];
    [left; split; [tauto|apply select_known; left; exact H2]|].
  destruct (string_dec moea "moead") as [H3|H3];
    [left; split; [tauto|apply select_known; right; left; exact H3]|].
  destruct (string_dec moea "nsga3") as [H4|H4];
    [left; split; [tauto|apply select_known; right; right; exact H4]|].
  right. split; [|apply select_unknown; unfold known_family]; tauto.
Qed.

(** ** What every run of the script preserves *)

Lemma extends_refl (P : Event -> Prop) (s : State) : extends P s s.
Proof.
  split; [exists []; split; [reflexivity|constructor]|].
  exists []. symmetry. apply app_nil_r.
Qed.

Lemma extends_trans (P : Event -> Prop) (s1 s2 s3 : State) :
  extends P s1 s2 -> extends P s2 s3 -> extends P s1 s3.
Proof.
  intros [[e1 [He1 Hp1]] [n1 Hn1]] [[e2 [He2 Hp2]] [n2 Hn2]].
  split.
  - exists (e2 ++ e1). split.
    + rewrite He2, He1. apply app_assoc.
    + apply Forall_app. split; assumption.
  - exists (n1 ++ n2). rewrite Hn2, Hn1. symmetry. apply app_assoc.
Qed.

Lemma for_each_extends {A : Type} (P : Event -> Prop)
    (body : A -> M unit) (l : list A) :
  (forall a s, extends P s (snd (body a s))) ->
  forall s, extends P s (snd (for_each l body s)).
Proof.
  intros Hbody. induction l as [|a l IH]; intros s.
  - apply extends_refl.
  - cbn [for_each]. unfold bind.
    specialize (Hbody a s).
    destruct (body a s) as [[[]|e] s1]; cbn [snd] in *.
    + eapply extends_trans; [exact Hbody|apply IH].
    + exact Hbody.
Qed.

Lemma legal_asked (w : World) (moea : string) (b : Benchmark) (p : Search) :
  Forall (legal w moea) (rev (map (fun x => EvEvaluate x true) (asked b p))).
Proof.
  apply Forall_rev, Forall_map, Forall_forall.
  intros x _. reflexivity.
Qed.

Lemma one_run_extends (w : World) (moea : string) (pid r : Z) (s : State) :
  extends (legal w moea) s (snd (one_run w moea pid r s)).
Proof.
  destruct (settings_cases (evaluator_n_objs (in1kmop w pid)))
    as [[_ [dirs Hs]] | [_ Hs]].
  - destruct (select_cases moea (shape0 dirs) dirs) as [[_ [alg Ha]] | [_ Ha]].
    + rewrite (one_run_ok w moea pid r s _ _ _ _ Hs Ha). cbn [snd].
      split; cbn [events experiment_stats]; [|eexists; reflexivity].
      eexists; split; [reflexivity|].
      unfold run_events.
      repeat (apply Forall_cons; [exact I || reflexivity || idtac|]).
      * apply Forall_app. split; [apply legal_asked|].
        repeat (apply Forall_cons;
                [first [exact I | cbn [legal]; eauto 6]|]).
        constructor.
    + rewrite (one_run_no_algorithm w moea pid r s _ _ _ _ Hs Ha). cbn [snd].
      split; cbn [events experiment_stats].
      * exists [EvPrint (shape0 dirs);
                EvSettings pid (evaluator_n_objs (in1kmop w pid));
                EvProblem pid; EvBenchmark pid].
        split; [reflexivity|]. repeat constructor.
      * exists []. symmetry. apply app_nil_r.
  - rewrite (one_run_no_settings w moea pid r s _ Hs). cbn [snd].
    split; cbn [events experiment_stats].
    + exists [EvSettings pid (evaluator_n_objs (in1kmop w pid));
              EvProblem pid; EvBenchmark pid].
      split; [reflexivity|]. repeat constructor.
    + exists []. symmetry. apply app_nil_r.
Qed.

Lemma dump_report_eq (moea : string) (pid : Z) (s : State) :
  dump_report moea pid s
  = (Ok tt,
     {| experiment_stats := experiment_stats s;
        files := write_file (report_name pid moea)
                   (JArray (map json_run_stats (experiment_stats s)))
                   (files s);
        events := EvDump (report_name pid moea)
                    (JArray (map json_run_stats (experiment_stats s)))
                    :: events s;
        engine_calls := engine_calls s |}).
Proof.
  unfold dump_report. rewrite json_dump_stats. reflexivity.
Qed.

Lemma one_problem_extends (w : World) (moea : string) (runs pid : Z)
    (s : State) :
  extends (legal w moea) s (snd (one_problem w moea runs pid s)).
Proof.
  unfold one_problem, bind.
  pose proof (for_each_extends (legal w moea)
                (fun r => one_run w moea pid r) (range 1 (runs + 1))
                (fun r s0 => one_run_extends w moea pid r s0) s) as Hloop.
  destruct (for_each _ _ s) as [[[]|e] s1]; cbn [snd] in *; [|exact Hloop].
  eapply extends_trans; [exact Hloop|].
  rewrite dump_report_eq. cbn [snd].
  split; cbn [events experiment_stats].
  - eexists [_]. split; [reflexivity|]. repeat constructor.
  - exists []. symmetry. apply app_nil_r.
Qed.

(** Whatever the world, the family and the number of repeats, and
    whether the script ends normally or by an exception: every event of
    the run is legal, and [experiment_stats] has only been appended to. *)
Lemma run_main_extends (w : World) (moea : string) (runs : Z) :
  extends (legal w moea) initial (snd (run_main w moea runs)).
Proof.
  unfold run_main, main, bind. cbn [set_experiment_stats initial].
  apply (for_each_extends (legal w moea) (one_problem w moea runs)).
  intros pid s. apply one_problem_extends.
Qed.

Lemma run_main_legal (w : World) (moea : string) (runs : Z) (e : Event) :
  In e (trace (snd (run_main w moea runs))) -> legal w moea e.
Proof.
  intros Hin. unfold trace in Hin. apply in_rev in Hin.
  destruct (run_main_extends w moea runs) as [[evs [Hev Hall]] _].
  rewrite Hev in Hin. cbn [initial events] in Hin. rewrite app_nil_r in Hin.
  rewrite Forall_forall in Hall. apply Hall, Hin.
Qed.

(** ** The run in which nothing raises *)

Lemma state_eq (a a' : list RunStats) (b b' : list (string * json))
    (c c' : list Event) (d d' : nat) :
  a = a' -> b = b' -> c = c' -> d = d' ->
  mkState a b c d = mkState a' b' c' d'.
Proof. intros -> -> -> ->. reflexivity. Qed.

Lemma range_cons (lo hi : Z) :
  lo < hi -> range lo hi = lo :: range (lo + 1) hi.
Proof.
  intros H. unfold range.
  replace (Z.to_nat (hi - lo)) with (S (Z.to_nat (hi - (lo + 1)))) by lia.
  cbn [seq map]. rewrite <- seq_shift, map_map.
  f_equal; [lia|]. apply map_ext. intros i. lia.
Qed.

Lemma range_nil (lo hi : Z) : hi <= lo -> range lo hi = [].
Proof.
  intros H. unfold range.
  replace (Z.to_nat (hi - lo)) with 0%nat by lia. reflexivity.
Qed.

Lemma range_length (lo hi : Z) :
  List.length (range lo hi) = Z.to_nat (hi - lo).
Proof. unfold range. rewrite length_map, length_seq. reflexivity. Qed.

Lemma in_range (lo hi x : Z) : In x (range lo hi) <-> lo <= x < hi.
Proof.
  unfold range. rewrite in_map_iff. split.
  - intros [i [<- Hi]]. apply in_seq in Hi. lia.
  - intros H. exists (Z.to_nat (x - lo)). split; [lia|].
    apply in_seq. lia.
Qed.

Section Success.

Variable w : World.
Variable moea : string.
Hypothesis family_known : known_family moea.

Lemma resolved_ok (pid : Z) :
  supported (evaluator_n_objs (in1kmop w pid)) ->
  get_benchmark_settings (evaluator_n_objs (in1kmop w pid))
  = Ok (resolved w pid).
Proof.
  intros H. unfold resolved.
  destruct (settings_supported _ H) as [dirs ->]. reflexivity.
Qed.

Lemma chosen_ok (pid : Z) :
  select_algorithm moea (fst (fst (resolved w pid))) (snd (resolved w pid))
  = Ok (chosen w moea pid).
Proof.
  unfold chosen. destruct (resolved w pid) as [[pop n_gen] dirs].
  cbn [fst snd].
  destruct (select_known moea pop dirs family_known) as [alg ->].
  reflexivity.
Qed.

Lemma repeats_ok (pid pop_size n_gen : Z) (ref_dirs : ndarray)
    (algorithm : Algorithm) :
  get_benchmark_settings (evaluator_n_objs (in1kmop w pid))
  = Ok (pop_size, n_gen, ref_dirs) ->
  select_algorithm moea pop_size ref_dirs = Ok algorithm ->
  forall (rs : list Z) (s : State),
    for_each rs (fun r => one_run w moea pid r) s
    = (Ok tt,
       {| experiment_stats :=
            experiment_stats s
              ++ repeats_stats w pid algorithm n_gen rs (engine_calls s);
          files := files s;
          events :=
            repeats_events w pid algorithm pop_size n_gen rs (engine_calls s)
              ++ events s;
          engine_calls := (List.length rs + engine_calls s)%nat |}).
Proof.
  intros Hs Ha rs. induction rs as [|r rs IH]; intros s.
  - cbn [for_each repeats_stats repeats_events List.length app Nat.add].
    rewrite app_nil_r. destruct s; reflexivity.
  - cbn [for_each]. unfold bind.
    rewrite (one_run_ok w moea pid r s _ _ _ _ Hs Ha), IH.
    cbn [experiment_stats files events engine_calls
         repeats_stats repeats_events List.length].
    f_equal. apply state_eq.
    + rewrite <- app_assoc. reflexivity.
    + reflexivity.
    + rewrite <- app_assoc. reflexivity.
    + lia.
Qed.

Lemma one_problem_ok (runs pid : Z) (s : State) :
  supported (evaluator_n_objs (in1kmop w pid)) ->
  one_problem w moea runs pid s = (Ok tt, after_problem w moea runs s pid).
Proof.
  intros Hsup. unfold one_problem, bind, after_problem.
  pose proof (resolved_ok pid Hsup) as Hs.
  pose proof (chosen_ok pid) as Ha.
  destruct (resolved w pid) as [[pop n_gen] dirs]. cbn [fst snd] in Ha.
  rewrite (repeats_ok pid pop n_gen dirs _ Hs Ha).
  rewrite dump_report_eq. reflexivity.
Qed.

Lemma problems_ok (runs : Z) (pids : list Z) :
  (forall pid, In pid pids -> supported (evaluator_n_objs (in1kmop w pid))) ->
  forall s,
    for_each pids (one_problem w moea runs) s
    = (Ok tt, after_problems w moea runs s pids).
Proof.
  induction pids as [|pid pids IH]; intros Hsup s; [reflexivity|].
  cbn [for_each after_problems fold_left]. unfold bind.
  rewrite one_problem_ok by (apply Hsup; left; reflexivity).
  apply IH. intros q Hq. apply Hsup. right. exact Hq.
Qed.

Lemma run_main_ok (runs : Z) :
  (forall pid, 1 <= pid <= 9 ->
               supported (evaluator_n_objs (in1kmop w pid))) ->
  run_main w moea runs
  = (Ok tt, after_problems w moea runs initial (range 1 10)).
Proof.
  intros Hsup. unfold run_main, main, bind.
  cbn [set_experiment_stats initial].
  apply problems_ok. intros pid Hin. apply in_range in Hin.
  apply Hsup. lia.
Qed.

End Success.

(** ** Authoritative evaluation *)

(** C9: every call to [benchmark.evaluate] that the script makes, the
    ones made through [In1KMOPProblem._evaluate] during the search as
    well as the one on the final result set, passes [true_eval=True]. *)
Theorem every_evaluation_is_authoritative (w : World) (moea : string)
    (runs : Z) (x : list Candidate) (true_eval : bool) :
  In (EvEvaluate x true_eval) (trace (snd (run_main w moea runs))) ->
  true_eval = true.
Proof.
  intros Hin. exact (run_main_legal w moea runs _ Hin).
Qed.

Lemma every_evaluation_is_authoritative_witness :
  In (EvEvaluate [[0; 0; 0; 0; 0]; [1; 1; 1; 1; 1]] true)
     (trace (snd (run_main Demo.world "nsga2" 1)))
  /\ true = true.
Proof.
  assert (Hin : In (EvEvaluate [[0; 0; 0; 0; 0]; [1; 1; 1; 1; 1]] true)
                   (trace (snd (run_main Demo.world "nsga2" 1)))).
  { vm_compute. do 6 right. left. reflexivity. }
  split; [exact Hin|].
  exact (every_evaluation_is_authoritative Demo.world "nsga2" 1 _ _ Hin).
Defined.

(** ** Counting events *)

Lemma count_app (f : Event -> bool) (l1 l2 : list Event) :
  count f (l1 ++ l2) = (count f l1 + count f l2)%nat.
Proof. unfold count. rewrite filter_app, length_app. reflexivity. Qed.

Lemma count_rev (f : Event -> bool) (l : list Event) :
  count f (rev l) = count f l.
Proof.
  induction l as [|e l IH]; [reflexivity|].
  cbn [rev]. rewrite count_app, IH.
  unfold count. cbn [filter]. destruct (f e); cbn [List.length]; lia.
Qed.

Lemma count_none (f : Event -> bool) (l : list Event) :
  (forall e, In e l -> f e = false) -> count f l = 0%nat.
Proof.
  induction l as [|e l IH]; intros H; [reflexivity|].
  unfold count in *. cbn [filter].
  rewrite (H e) by (left; reflexivity).
  apply IH. intros e' He'. apply H. right. exact He'.
Qed.

Lemma for_each_app {A : Type} (body : A -> M unit) (l1 l2 : list A)
    (s : State) :
  for_each (l1 ++ l2) body s
  = match for_each l1 body s with
    | (Ok _, s1) => for_each l2 body s1
    | (Raise e, s1) => (Raise e, s1)
    end.
Proof.
  revert s. induction l1 as [|a l1 IH]; intros s; [reflexivity|].
  cbn [app for_each]. unfold bind.
  destruct (body a s) as [[[]|e] s1]; [apply IH|reflexivity].
Qed.

Lemma range_split (lo mid hi : Z) :
  lo <= mid < hi -> range lo hi = range lo mid ++ mid :: range (mid + 1) hi.
Proof.
  intros H.
  remember (Z.to_nat (mid - lo)) as d eqn:Hd.
  revert lo H Hd. induction d as [|d IH]; intros lo H Hd.
  - assert (lo = mid) by lia. subst lo.
    rewrite (range_nil mid mid) by lia. apply range_cons. lia.
  - rewrite (range_cons lo hi), (range_cons lo mid) by lia.
    cbn [app]. f_equal. apply IH; lia.
Qed.

(** ** Unknown algorithm families *)

(** C5, as amended: with an unknown family, at least one repeat and a
    supported objective count for problem 1, the script ends with the
    [NotImplementedError] of the dispatch (line 141) in the first repeat
    of problem 1.  No optimizer has been built, the engine has not run
    and no report has been written, but the benchmark and the problem of
    problem 1 have been created and its settings resolved. *)
Theorem unknown_family_raises_in_first_run (w : World) (moea : string)
    (runs : Z)
    (Hfamily : ~ known_family moea)
    (Hruns : 1 <= runs)
    (Hcount : supported (evaluator_n_objs (in1kmop w 1))) :
  run_main w moea runs
  = (Raise raised_in_dispatch,
     {| experiment_stats := [];
        files := [];
        events := [EvPrint (fst (fst (resolved w 1)));
                   EvSettings 1 (evaluator_n_objs (in1kmop w 1));
                   EvProblem 1;
                   EvBenchmark 1];
        engine_calls := 0 |}).
Proof.
  unfold run_main, main, bind. cbn [set_experiment_stats initial].
  rewrite (range_cons 1 10) by lia. cbn [for_each].
  unfold bind, one_problem, bind.
  rewrite (range_cons 1 (runs + 1)) by lia. cbn [for_each]. unfold bind.
  pose proof (resolved_ok w 1 Hcount) as Hs.
  destruct (resolved w 1) as [[pop n_gen] dirs]. cbn [fst].
  rewrite (one_run_no_algorithm w moea 1 1 _ pop n_gen dirs
             raised_in_dispatch Hs (select_unknown moea pop dirs Hfamily)).
  reflexivity.
Qed.

Lemma unknown_family_raises_in_first_run_witness :
  ~ known_family "spea2"
  /\ 1 <= 3
  /\ supported (evaluator_n_objs (in1kmop Demo.world 1))
  /\ fst (run_main Demo.world "spea2" 3) = Raise raised_in_dispatch.
Proof.
  assert (Hfamily : ~ known_family "spea2")
    by (unfold known_family; intros [H | [H | H]]; discriminate H).
  assert (Hruns : 1 <= 3) by lia.
  assert (Hcount : supported (evaluator_n_objs (in1kmop Demo.world 1)))
    by (left; reflexivity).
  split; [exact Hfamily|]. split; [exact Hruns|]. split; [exact Hcount|].
  rewrite (unknown_family_raises_in_first_run
             Demo.world "spea2" 3 Hfamily Hruns Hcount).
  reflexivity.
Defined.

(** C5, as stated, fails: with the unknown family "spea2" and one
    repeat the script does raise, but only after it has constructed the
    benchmark, the problem and the settings of problem 1. *)
Lemma unknown_family_constructs_before_raising :
  fst (run_main Demo.world "spea2" 1) = Raise raised_in_dispatch
  /\ trace (snd (run_main Demo.world "spea2" 1))
     = [EvBenchmark 1; EvProblem 1; EvSettings 1 2; EvPrint 100]
  /\ count is_construction (trace (snd (run_main Demo.world "spea2" 1)))
     <> 0%nat.
Proof.
  split; [vm_compute; reflexivity|].
  split; [vm_compute; reflexivity|].
  vm_compute. discriminate.
Qed.

(** ** The report files *)

Lemma read_write_same (name : string) (content : json)
    (fs : list (string * json)) :
  read_file name (write_file name content fs) = Some content.
Proof.
  unfold write_file. cbn [read_file]. rewrite String.eqb_refl. reflexivity.
Qed.

Lemma read_write_other (name name' : string) (content : json)
    (fs : list (string * json)) :
  (name' =? name)%string = false ->
  read_file name (write_file name' content fs) = read_file name fs.
Proof.
  intros Hne. unfold write_file. cbn [read_file]. rewrite Hne.
  induction fs as [|[n c] fs IH]; [reflexivity|].
  cbn [filter fst read_file].
  destruct (String.eqb_spec n name') as [->|Hn]; cbn [negb].
  - rewrite Hne. exact IH.
  - cbn [read_file]. rewrite IH. reflexivity.
Qed.

Lemma report_name_distinct (moea : string) (p q : Z) :
  1 <= p <= 9 -> 1 <= q <= 9 -> p <> q ->
  (report_name p moea =? report_name q moea)%string = false.
Proof.
  intros Hp Hq Hne.
  assert (Hp' : p = 1 \/ p = 2 \/ p = 3 \/ p = 4 \/ p = 5 \/ p = 6
                \/ p = 7 \/ p = 8 \/ p = 9) by lia.
  assert (Hq' : q = 1 \/ q = 2 \/ q = 3 \/ q = 4 \/ q = 5 \/ q = 6
                \/ q = 7 \/ q = 8 \/ q = 9) by lia.
  repeat (destruct Hp' as [-> | Hp']); try subst p;
    repeat (destruct Hq' as [-> | Hq']); try subst q;
    try reflexivity; exfalso; apply Hne; reflexivity.
Qed.

Section AfterProblems.

Variable w : World.
Variable moea : string.
Variable runs : Z.

Lemma repeats_stats_length (pid : Z) (algorithm : Algorithm) (n_gen : Z)
    (rs : list Z) (k : nat) :
  List.length (repeats_stats w pid algorithm n_gen rs k) = List.length rs.
Proof.
  revert k. induction rs as [|r rs IH]; intros k; [reflexivity|].
  cbn [repeats_stats List.length]. rewrite IH. reflexivity.
Qed.

Lemma repeats_stats_runs (pid : Z) (algorithm : Algorithm) (n_gen : Z)
    (rs : list Z) (k : nat) :
  map run (repeats_stats w pid algorithm n_gen rs k) = rs.
Proof.
  revert k. induction rs as [|r rs IH]; intros k; [reflexivity|].
  cbn [repeats_stats map]. rewrite IH. reflexivity.
Qed.

(** The runs that problem [pid] itself contributes. *)
Lemma after_problem_stats (s : State) (pid : Z) :
  exists own,
    experiment_stats (after_problem w moea runs s pid)
    = experiment_stats s ++ own
    /\ map run own = range 1 (runs + 1).
Proof.
  unfold after_problem. destruct (resolved w pid) as [[pop n_gen] dirs].
  cbn [experiment_stats]. eexists. split; [reflexivity|].
  apply repeats_stats_runs.
Qed.

Lemma after_problem_files (s : State) (pid : Z) :
  files (after_problem w moea runs s pid)
  = write_file (report_name pid moea)
      (JArray (map json_run_stats
                   (experiment_stats (after_problem w moea runs s pid))))
      (files s).
Proof.
  unfold after_problem. destruct (resolved w pid) as [[pop n_gen] dirs].
  reflexivity.
Qed.

Lemma after_problems_cons (s : State) (pid : Z) (pids : list Z) :
  after_problems w moea runs s (pid :: pids)
  = after_problems w moea runs (after_problem w moea runs s pid) pids.
Proof. reflexivity. Qed.

Lemma after_problems_app (s : State) (l1 l2 : list Z) :
  after_problems w moea runs s (l1 ++ l2)
  = after_problems w moea runs (after_problems w moea runs s l1) l2.
Proof. apply fold_left_app. Qed.

Lemma after_problems_stats_length (pids : list Z) (s : State) :
  List.length (experiment_stats (after_problems w moea runs s pids))
  = (List.length (experiment_stats s)
     + List.length pids * Z.to_nat runs)%nat.
Proof.
  revert s. induction pids as [|pid pids IH]; intros s.
  - cbn [after_problems fold_left List.length]. lia.
  - rewrite after_problems_cons.
    rewrite IH.
    destruct (after_problem_stats s pid) as [own [-> Hown]].
    rewrite length_app.
    rewrite <- (length_map run own), Hown, range_length.
    cbn [List.length].
    replace (Z.to_nat (runs + 1 - 1)) with (Z.to_nat runs) by lia.
    lia.
Qed.

Lemma after_problems_stats_grow (pids : list Z) (s : State) :
  exists later,
    experiment_stats (after_problems w moea runs s pids)
    = experiment_stats s ++ later.
Proof.
  revert s. induction pids as [|pid pids IH]; intros s.
  - exists []. symmetry. apply app_nil_r.
  - rewrite after_problems_cons.
    destruct (IH (after_problem w moea runs s pid)) as [later ->].
    destruct (after_problem_stats s pid) as [own [-> _]].
    exists (own ++ later). symmetry. apply app_assoc.
Qed.

(** Later problems leave a file alone unless they write it. *)
Lemma after_problems_frame (name : string) (pids : list Z) :
  (forall q, In q pids -> (report_name q moea =? name)%string = false) ->
  forall s,
    read_file name (files (after_problems w moea runs s pids))
    = read_file name (files s).
Proof.
  induction pids as [|pid pids IH]; intros Hne s; [reflexivity|].
  rewrite after_problems_cons.
  rewrite IH by (intros q Hq; apply Hne; right; exact Hq).
  rewrite after_problem_files.
  apply read_write_other, Hne. left. reflexivity.
Qed.

(** The report of a problem is the whole of [experiment_stats] as it
    stands when that problem's repeats are over. *)
Lemma after_problems_file (before after : list Z) (pid : Z) (s : State) :
  (forall q, In q after ->
             (report_name q moea =? report_name pid moea)%string = false) ->
  read_file (report_name pid moea)
    (files (after_problems w moea runs s (before ++ pid :: after)))
  = Some (JArray
            (map json_run_stats
               (experiment_stats
                  (after_problems w moea runs s (before ++ [pid]))))).
Proof.
  intros Hne.
  change (pid :: after) with ([pid] ++ after).
  rewrite app_assoc, after_problems_app.
  rewrite after_problems_frame by exact Hne.
  rewrite after_problems_app.
  cbn [after_problems fold_left]. rewrite after_problem_files.
  apply read_write_same.
Qed.

End AfterProblems.

(** ** Unsupported objective counts *)

(** C4: for an objective count other than 2, 3 and 4 the settings
    resolution raises [NotImplementedError] (line 59), and in no run of
    the script is an optimizer ever built for a problem that has such a
    count.  When the script, run with a known family and at least one
    repeat, gets as far as such a problem, it ends with that exception
    and writes no report for the problem. *)
Theorem unsupported_count_raises_before_build (w : World) (moea : string)
    (runs pid n_obj : Z)
    (Hcount : ~ supported n_obj)
    (Hpid : evaluator_n_objs (in1kmop w pid) = n_obj) :
  get_benchmark_settings n_obj = Raise raised_in_settings
  /\ count (is_build_for pid) (trace (snd (run_main w moea runs))) = 0%nat
  /\ (known_family moea -> 1 <= runs -> 1 <= pid <= 9 ->
      (forall q, 1 <= q < pid ->
                 supported (evaluator_n_objs (in1kmop w q))) ->
      fst (run_main w moea runs) = Raise raised_in_settings
      /\ read_file (report_name pid moea) (files (snd (run_main w moea runs)))
         = None).
Proof.
  pose proof (settings_unsupported n_obj Hcount) as Hraise.
  split; [exact Hraise|]. split.
  - apply count_none. intros e Hin.
    destruct e as [| | | |p r alg| | | |]; try reflexivity.
    cbn [is_build_for].
    destruct (Z.eqb_spec p pid) as [->|]; [|reflexivity].
    apply run_main_legal in Hin. cbn [legal] in Hin.
    destruct Hin as (pop & n_gen & dirs & Hs & _).
    rewrite Hpid, Hraise in Hs. discriminate.
  - intros Hfam Hruns Hrange Hbefore.
    assert (Hrun : exists s,
               run_main w moea runs = (Raise raised_in_settings, s)
               /\ files s
                  = files (after_problems w moea runs initial (range 1 pid))).
    { unfold run_main, main, bind. cbn [set_experiment_stats initial].
      rewrite (range_split 1 pid 10) by lia.
      rewrite for_each_app.
      rewrite (problems_ok w moea Hfam runs (range 1 pid))
        by (intros q Hq; apply in_range in Hq; apply Hbefore; lia).
      cbn [for_each]. unfold bind, one_problem, bind.
      rewrite (range_cons 1 (runs + 1)) by lia.
      cbn [for_each]. unfold bind.
      rewrite (one_run_no_settings w moea pid 1 _ raised_in_settings)
        by (rewrite Hpid; exact Hraise).
      eexists. split; reflexivity. }
    destruct Hrun as [s [-> Hfiles]]. cbn [fst snd].
    rewrite Hfiles. split; [reflexivity|].
    rewrite after_problems_frame; [reflexivity|].
    intros q Hq. apply in_range in Hq. apply report_name_distinct; lia.
Qed.

Lemma unsupported_count_raises_before_build_witness :
  ~ supported 5
  /\ evaluator_n_objs (in1kmop Demo.world5 3) = 5
  /\ get_benchmark_settings 5 = Raise raised_in_settings
  /\ count (is_build_for 3) (trace (snd (run_main Demo.world5 "nsga2" 2)))
     = 0%nat
  /\ fst (run_main Demo.world5 "nsga2" 2) = Raise raised_in_settings
  /\ read_file (report_name 3 "nsga2")
       (files (snd (run_main Demo.world5 "nsga2" 2))) = None.
Proof.
  assert (Hcount : ~ supported 5) by (unfold supported; lia).
  assert (Hpid : evaluator_n_objs (in1kmop Demo.world5 3) = 5)
    by reflexivity.
  split; [exact Hcount|]. split; [exact Hpid|].
  destruct (unsupported_count_raises_before_build
              Demo.world5 "nsga2" 2 3 5 Hcount Hpid) as [H1 [H2 H3]].
  split; [exact H1|]. split; [exact H2|].
  apply H3; [left; reflexivity | lia | lia |].
  intros q Hq. assert (Hq' : q = 1 \/ q = 2) by lia.
  destruct Hq' as [-> | ->]; left; reflexivity.
Defined.

(** ** What a report contains *)

(** When nothing raises, the report written for problem [pid] holds one
    entry for every run made so far, those of problems 1 to [pid - 1]
    included: [pid * runs] entries. *)
Lemma report_holds_every_run_so_far (w : World) (moea : string)
    (runs pid : Z) :
  known_family moea ->
  (forall q, 1 <= q <= 9 -> supported (evaluator_n_objs (in1kmop w q))) ->
  1 <= pid <= 9 ->
  exists entries,
    read_file (report_name pid moea) (files (snd (run_main w moea runs)))
    = Some (JArray entries)
    /\ List.length entries = (Z.to_nat pid * Z.to_nat runs)%nat.
Proof.
  intros Hfam Hsup Hpid.
  rewrite (run_main_ok w moea Hfam runs Hsup). cbn [snd].
  rewrite (range_split 1 pid 10) by lia.
  rewrite after_problems_file.
  - eexists. split; [reflexivity|].
    rewrite length_map, after_problems_stats_length.
    rewrite length_app, range_length. cbn [initial experiment_stats List.length].
    replace (Z.to_nat (pid - 1) + 1)%nat with (Z.to_nat pid) by lia.
    reflexivity.
  - intros q Hq. apply in_range in Hq.
    apply report_name_distinct; lia.
Qed.

(** When nothing raises, the report of problem [pid + 1] starts with
    the whole report of problem [pid]. *)
Lemma report_starts_with_previous_report (w : World) (moea : string)
    (runs pid : Z) :
  known_family moea ->
  (forall q, 1 <= q <= 9 -> supported (evaluator_n_objs (in1kmop w q))) ->
  1 <= pid <= 8 ->
  exists entries own,
    read_file (report_name pid moea) (files (snd (run_main w moea runs)))
    = Some (JArray entries)
    /\ read_file (report_name (pid + 1) moea)
         (files (snd (run_main w moea runs)))
       = Some (JArray (entries ++ own))
    /\ List.length own = Z.to_nat runs.
Proof.
  intros Hfam Hsup Hpid.
  rewrite (run_main_ok w moea Hfam runs Hsup). cbn [snd].
  assert (H1 : read_file (report_name pid moea)
                 (files (after_problems w moea runs initial (range 1 10)))
               = Some (JArray
                         (map json_run_stats
                            (experiment_stats
                               (after_problems w moea runs initial
                                  (range 1 pid ++ [pid])))))).
  { rewrite (range_split 1 pid 10) by lia.
    apply after_problems_file.
    intros q Hq; apply in_range in Hq; apply report_name_distinct; lia. }
  assert (H2 : read_file (report_name (pid + 1) moea)
                 (files (after_problems w moea runs initial (range 1 10)))
               = Some (JArray
                         (map json_run_stats
                            (experiment_stats
                               (after_problems w moea runs initial
                                  (range 1 (pid + 1) ++ [pid + 1])))))).
  { rewrite (range_split 1 (pid + 1) 10) by lia.
    apply after_problems_file.
    intros q Hq; apply in_range in Hq; apply report_name_distinct; lia. }
  rewrite H1, H2. clear H1 H2.
  rewrite (range_split 1 pid (pid + 1)) by lia.
  rewrite (range_nil (pid + 1) (pid + 1)) by lia.
  rewrite (after_problems_app w moea runs initial (range 1 pid ++ [pid])).
  rewrite after_problems_cons.
  change (after_problems w moea runs ?s []) with s.
  destruct (after_problem_stats w moea runs
              (after_problems w moea runs initial (range 1 pid ++ [pid]))
              (pid + 1))
    as [own [-> Hown]].
  exists (map json_run_stats
              (experiment_stats
                 (after_problems w moea runs initial
                            (range 1 pid ++ [pid])))),
         (map json_run_stats own).
  split; [reflexivity|]. split; [rewrite map_app; reflexivity|].
  rewrite length_map, <- (length_map run own), Hown, range_length.
  f_equal. lia.
Qed.

(** C1 at runs = 1 in the small world: the report written for problem 2
    holds two entries, and the first of them is the run of problem 1
    (its objective values carry the problem id 1), the very entry that
    makes up the report of problem 1. *)
Theorem report_of_problem_2_holds_run_of_problem_1 :
  let final := snd (run_main Demo.world "nsga2" 1) in
  let entry_of_problem_1 :=
    JObject [("run", JInt 1);
             ("F", JArray [JArray [JFloat (inject_Z 1); JFloat (inject_Z 0)]]);
             ("HV", JFloat (inject_Z 1))] in
  let entry_of_problem_2 :=
    JObject [("run", JInt 1);
             ("F", JArray [JArray [JFloat (inject_Z 2); JFloat (inject_Z 1)]]);
             ("HV", JFloat (inject_Z 1))] in
  read_file "in1kmop1_nsga2.json" (files final)
  = Some (JArray [entry_of_problem_1])
  /\ read_file "in1kmop2_nsga2.json" (files final)
     = Some (JArray [entry_of_problem_1; entry_of_problem_2]).
Proof.
  split; vm_compute; reflexivity.
Qed.

(** C2 at runs = 1 in the small world: when the report of problem 1 is
    dumped, [experiment_stats] has one entry and the file holds exactly
    that list; the repeats of problem 2 then append to the same list,
    which has nine entries when the script ends. *)
Theorem report_list_appended_after_dump :
  let s1 := snd (one_problem Demo.world "nsga2" 1 1 initial) in
  let s2 := snd (one_problem Demo.world "nsga2" 1 2 s1) in
  let final := snd (run_main Demo.world "nsga2" 1) in
  read_file "in1kmop1_nsga2.json" (files s1)
  = Some (JArray (map json_run_stats (experiment_stats s1)))
  /\ List.length (experiment_stats s1) = 1%nat
  /\ List.length (experiment_stats s2) = 2%nat
  /\ firstn 1 (experiment_stats s2) = experiment_stats s1
  /\ List.length (experiment_stats final) = 9%nat
  /\ firstn 1 (experiment_stats final) = experiment_stats s1.
Proof.
  repeat split; vm_compute; reflexivity.
Qed.

(** What does hold of a dumped report: its file is not written again,
    and the entries it was made from stay where they are in
    [experiment_stats]; the list is only ever appended to. *)
Lemma dumped_entries_stay (w : World) (moea : string) (runs : Z)
    (before after : list Z) (pid : Z) (s : State) :
  (forall q, In q after ->
             (report_name q moea =? report_name pid moea)%string = false) ->
  let dumped :=
    experiment_stats (after_problems w moea runs s (before ++ [pid])) in
  let final := after_problems w moea runs s (before ++ pid :: after) in
  read_file (report_name pid moea) (files final)
  = Some (JArray (map json_run_stats dumped))
  /\ exists later,
       experiment_stats final = dumped ++ later
       /\ List.length later = (List.length after * Z.to_nat runs)%nat.
Proof.
  intros Hne dumped final. subst dumped final.
  split; [apply after_problems_file; exact Hne|].
  change (pid :: after) with ([pid] ++ after).
  rewrite app_assoc, after_problems_app.
  destruct (after_problems_stats_grow w moea runs after
              (after_problems w moea runs s (before ++ [pid])))
    as [later Hlater].
  exists later. split; [exact Hlater|].
  pose proof (after_problems_stats_length w moea runs after
                (after_problems w moea runs s (before ++ [pid]))) as Hlen.
  rewrite Hlater, length_app in Hlen. lia.
Qed.

(** ** How often things are constructed *)

Lemma count_cons (f : Event -> bool) (e : Event) (l : list Event) :
  count f (e :: l) = ((if f e then 1 else 0) + count f l)%nat.
Proof. unfold count. cbn [filter]. destruct (f e); reflexivity. Qed.

Lemma list_sum_indicator (q : Z) (c : nat) (l : list Z) :
  NoDup l -> In q l ->
  list_sum (map (fun p => if p =? q then c else 0%nat) l) = c.
Proof.
  induction l as [|p l IH]; intros Hnd Hin; [destruct Hin|].
  inversion Hnd as [|? ? Hnotin Hnd']; subst.
  cbn [map]. unfold list_sum in *. cbn [fold_right].
  destruct (Z.eqb_spec p q) as [->|Hne].
  - assert (Hzero : fold_right Nat.add 0%nat
                      (map (fun p => if p =? q then c else 0%nat) l) = 0%nat).
    { clear IH Hnd Hnd' Hin. induction l as [|a l IHl]; [reflexivity|].
      cbn [map fold_right].
      destruct (Z.eqb_spec a q) as [->|_];
        [exfalso; apply Hnotin; left; reflexivity|].
      apply IHl. intros H. apply Hnotin. right. exact H. }
    rewrite Hzero. lia.
  - destruct Hin as [Heq|Hin]; [contradiction|].
    rewrite (IH Hnd' Hin). reflexivity.
Qed.

Lemma list_sum_zero {A : Type} (l : list A) :
  list_sum (map (fun _ => 0%nat) l) = 0%nat.
Proof. induction l as [|a l IH]; [reflexivity|]. exact IH. Qed.

Lemma list_sum_ones {A : Type} (l : list A) :
  list_sum (map (fun _ => 1%nat) l) = List.length l.
Proof.
  induction l as [|a l IH]; [reflexivity|].
  cbn [map List.length]. unfold list_sum in *. cbn [fold_right].
  rewrite IH. reflexivity.
Qed.

Lemma range_NoDup (lo hi : Z) : NoDup (range lo hi).
Proof.
  unfold range. apply Injective_map_NoDup; [|apply seq_NoDup].
  intros i j H. lia.
Qed.

Section Counting.

Variable w : World.
Variable moea : string.
Variable runs : Z.

(** [f] only looks at constructions. *)
Variable f : Event -> bool.
Hypothesis f_constructions : forall e, is_construction e = false -> f e = false.

Lemma count_run_events (pid r pop_size n_gen : Z) (k : nat) :
  count f (run_events w pid r (chosen w moea pid) pop_size n_gen k)
  = count f (constructions w moea pid r).
Proof.
  unfold run_events, constructions.
  rewrite !count_cons, count_app.
  rewrite !(f_constructions (EvIndicator _ _)) by reflexivity.
  rewrite !(f_constructions (EvEvaluate _ _)) by reflexivity.
  rewrite (count_none f (rev _)).
  - rewrite !count_cons.
    rewrite !(f_constructions (EvMinimize _ _ _)) by reflexivity.
    rewrite !(f_constructions (EvPrint _)) by reflexivity.
    lia.
  - intros e He. apply in_rev, in_map_iff in He.
    destruct He as [x [<- _]]. apply f_constructions. reflexivity.
Qed.

Lemma count_repeats_events (pid pop_size n_gen : Z) (rs : list Z) (k : nat) :
  count f (repeats_events w pid (chosen w moea pid) pop_size n_gen rs k)
  = list_sum (map (fun r => count f (constructions w moea pid r)) rs).
Proof.
  revert k. induction rs as [|r rs IH]; intros k; [reflexivity|].
  cbn [repeats_events map]. rewrite count_app, IH, count_run_events.
  unfold list_sum. cbn [fold_right]. lia.
Qed.

Lemma count_after_problem (s : State) (pid : Z) :
  count f (events (after_problem w moea runs s pid))
  = (list_sum (map (fun r => count f (constructions w moea pid r))
                   (range 1 (runs + 1)))
     + count f (events s))%nat.
Proof.
  unfold after_problem. destruct (resolved w pid) as [[pop n_gen] dirs].
  cbn [events].
  rewrite count_cons, count_app, count_repeats_events.
  rewrite (f_constructions (EvDump _ _)) by reflexivity.
  reflexivity.
Qed.

Lemma count_after_problems (pids : list Z) (s : State) :
  count f (events (after_problems w moea runs s pids))
  = (list_sum
       (map (fun pid =>
               list_sum (map (fun r => count f (constructions w moea pid r))
                             (range 1 (runs + 1))))
            pids)
     + count f (events s))%nat.
Proof.
  revert s. induction pids as [|pid pids IH]; intros s; [reflexivity|].
  rewrite after_problems_cons, IH, count_after_problem.
  cbn [map]. unfold list_sum. cbn [fold_right]. lia.
Qed.

End Counting.

Lemma list_sum_const {A : Type} (c : nat) (l : list A) :
  list_sum (map (fun _ => c) l) = (List.length l * c)%nat.
Proof.
  induction l as [|a l IH]; [reflexivity|].
  cbn [map List.length]. unfold list_sum in *. cbn [fold_right].
  rewrite IH. lia.
Qed.

Lemma count_kind_after_problems (w : World) (moea : string) (runs pid : Z)
    (f : Z -> Event -> bool) :
  (forall q e, is_construction e = false -> f q e = false) ->
  (forall q r, count (f pid) (constructions w moea q r)
               = if q =? pid then 1%nat else 0%nat) ->
  1 <= pid <= 9 ->
  count (f pid) (trace (after_problems w moea runs initial (range 1 10)))
  = Z.to_nat runs.
Proof.
  intros Hf Hone Hpid. unfold trace. rewrite count_rev.
  rewrite (count_after_problems w moea runs (f pid) (Hf pid)).
  cbn [initial events]. change (count (f pid) []) with 0%nat.
  rewrite (map_ext _ (fun q => if q =? pid then Z.to_nat runs else 0%nat)).
  - rewrite list_sum_indicator;
      [lia | apply range_NoDup | apply in_range; lia].
  - intros q.
    rewrite (map_ext _ (fun _ => if q =? pid then 1%nat else 0%nat))
      by (intros r; apply Hone).
    rewrite list_sum_const, range_length.
    destruct (q =? pid); lia.
Qed.

(** C8, as amended: when nothing raises, the benchmark of a problem is
    instantiated once per repeat, the problem around it is created once
    per repeat and its settings are resolved once per repeat, [runs]
    times each; and every repeat builds one optimizer of its own. *)
Theorem constructions_once_per_repeat (w : World) (moea : string)
    (runs pid : Z)
    (Hfamily : known_family moea)
    (Hcounts : forall q, 1 <= q <= 9 ->
                         supported (evaluator_n_objs (in1kmop w q)))
    (Hpid : 1 <= pid <= 9) :
  let tr := trace (snd (run_main w moea runs)) in
  count (is_benchmark pid) tr = Z.to_nat runs
  /\ count (is_problem pid) tr = Z.to_nat runs
  /\ count (is_settings pid) tr = Z.to_nat runs
  /\ (forall r, 1 <= r <= runs -> count (is_build pid r) tr = 1%nat).
Proof.
  intros tr. subst tr.
  rewrite (run_main_ok w moea Hfamily runs Hcounts). cbn [snd].
  split; [|split; [|split]].
  - apply (count_kind_after_problems w moea runs pid is_benchmark);
      [intros q [] H; try reflexivity; discriminate H | | exact Hpid].
    intros q r. unfold constructions. rewrite !count_cons.
    cbn [is_benchmark count filter List.length]. destruct (q =? pid); reflexivity.
  - apply (count_kind_after_problems w moea runs pid is_problem);
      [intros q [] H; try reflexivity; discriminate H | | exact Hpid].
    intros q r. unfold constructions. rewrite !count_cons.
    cbn [is_problem count filter List.length]. destruct (q =? pid); reflexivity.
  - apply (count_kind_after_problems w moea runs pid is_settings);
      [intros q [] H; try reflexivity; discriminate H | | exact Hpid].
    intros q r. unfold constructions. rewrite !count_cons.
    cbn [is_settings count filter List.length]. destruct (q =? pid); reflexivity.
  - intros r Hr. unfold trace. rewrite count_rev.
    rewrite (count_after_problems w moea runs (is_build pid r))
      by (intros [] H; try reflexivity; discriminate H).
    cbn [initial events]. change (count (is_build pid r) []) with 0%nat.
    rewrite (map_ext _ (fun q => if q =? pid then 1%nat else 0%nat)).
    + rewrite list_sum_indicator;
        [lia | apply range_NoDup | apply in_range; lia].
    + intros q.
      rewrite (map_ext _ (fun r' => if r' =? r
                                    then (if q =? pid then 1%nat else 0%nat)
                                    else 0%nat)).
      * rewrite list_sum_indicator;
          [reflexivity | apply range_NoDup | apply in_range; lia].
      * intros r'. unfold constructions. rewrite !count_cons.
        cbn [is_build count filter List.length].
        destruct (q =? pid), (r' =? r); reflexivity.
Qed.

Lemma constructions_once_per_repeat_witness :
  known_family "nsga2"
  /\ (forall q, 1 <= q <= 9 ->
                supported (evaluator_n_objs (in1kmop Demo.world q)))
  /\ 1 <= 1 <= 9
  /\ count (is_benchmark 1) (trace (snd (run_main Demo.world "nsga2" 2)))
     = 2%nat.
Proof.
  assert (Hfamily : known_family "nsga2") by (left; reflexivity).
  assert (Hcounts : forall q, 1 <= q <= 9 ->
                      supported (evaluator_n_objs (in1kmop Demo.world q)))
    by (intros q _; left; reflexivity).
  assert (Hpid : 1 <= 1 <= 9) by lia.
  split; [exact Hfamily|]. split; [exact Hcounts|]. split; [exact Hpid|].
  exact (proj1 (constructions_once_per_repeat
                  Demo.world "nsga2" 2 1 Hfamily Hcounts Hpid)).
Defined.

(** C8, as stated, fails: with two repeats the benchmark of problem 1
    is instantiated twice, its problem is created twice and its settings
    are resolved twice. *)
Lemma problem_instantiated_once_per_repeat :
  let tr := trace (snd (run_main Demo.world "nsga2" 2)) in
  count (is_benchmark 1) tr = 2%nat
  /\ count (is_problem 1) tr = 2%nat
  /\ count (is_settings 1) tr = 2%nat.
Proof.
  repeat split; vm_compute; reflexivity.
Qed.

(** ** The end-to-end scenario *)

Lemma one_run_files (w : World) (moea : string) (pid r : Z) (s : State) :
  files (snd (one_run w moea pid r s)) = files s.
Proof.
  destruct (settings_cases (evaluator_n_objs (in1kmop w pid)))
    as [[_ [dirs Hs]] | [_ Hs]].
  - destruct (select_cases moea (shape0 dirs) dirs) as [[_ [alg Ha]] | [_ Ha]].
    + rewrite (one_run_ok w moea pid r s _ _ _ _ Hs Ha). reflexivity.
    + rewrite (one_run_no_algorithm w moea pid r s _ _ _ _ Hs Ha).
      reflexivity.
  - rewrite (one_run_no_settings w moea pid r s _ Hs). reflexivity.
Qed.

Lemma for_each_keeps {A : Type} (I : State -> Prop)
    (body : A -> M unit) (l : list A) :
  (forall a s, I s -> I (snd (body a s))) ->
  forall s, I s -> I (snd (for_each l body s)).
Proof.
  intros Hbody. induction l as [|a l IH]; intros s Hs; [exact Hs|].
  cbn [for_each]. unfold bind.
  specialize (Hbody a s Hs).
  destruct (body a s) as [[[]|e] s1]; cbn [snd] in *.
  - apply IH. exact Hbody.
  - exact Hbody.
Qed.

(** However a problem ends, it leaves the report of every other problem
    as it was. *)
Lemma one_problem_keeps_other_reports (w : World) (moea : string)
    (runs pid : Z) (name : string) (s : State) :
  (report_name pid moea =? name)%string = false ->
  read_file name (files (snd (one_problem w moea runs pid s)))
  = read_file name (files s).
Proof.
  intros Hname. unfold one_problem, bind.
  pose proof (for_each_keeps (fun s' => files s' = files s)
                (fun r => one_run w moea pid r) (range 1 (runs + 1))
                (fun r s0 H => eq_trans (one_run_files w moea pid r s0) H)
                s eq_refl) as Hloop.
  destruct (for_each _ _ s) as [[[]|e] s1]; cbn [snd] in *.
  - rewrite dump_report_eq. cbn [snd files]. rewrite Hloop.
    apply read_write_other. exact Hname.
  - rewrite Hloop. reflexivity.
Qed.

Lemma problems_keep_other_reports (w : World) (moea : string) (runs : Z)
    (name : string) (pids : list Z) (s : State) :
  (forall q, In q pids -> (report_name q moea =? name)%string = false) ->
  read_file name (files (snd (for_each pids (one_problem w moea runs) s)))
  = read_file name (files s).
Proof.
  revert s. induction pids as [|p pids IH]; intros s Hnames; [reflexivity|].
  cbn [for_each]. unfold bind.
  pose proof (one_problem_keeps_other_reports w moea runs p name s
                (Hnames p (or_introl eq_refl))) as Hp.
  destruct (one_problem w moea runs p s) as [[[]|e] s1]; cbn [snd] in *.
  - rewrite IH by (intros q Hq; apply Hnames; right; exact Hq). exact Hp.
  - exact Hp.
Qed.

(** C7, as amended: the script run with the family nsga2 and two
    repeats on a suite whose first problem has two objectives.  Whatever
    the later problems do, the report of problem 1 has two entries,
    numbered 1 and 2, and they are the first two entries of
    [experiment_stats].  The objective matrix of each is the
    authoritative evaluation of the candidate set [res.X] that the
    engine returned in that repeat, and its indicator is the
    benchmark's "hv" indicator of that same set.  So, when the benchmark
    returns one row per candidate and one column per objective, the
    shape of the matrix is (number of candidates in [res.X], 2),
    whatever the population size; and the indicator is non-negative
    when the benchmark's indicator is. *)
Theorem scenario_report (w : World)
    (Hcount : evaluator_n_objs (in1kmop w 1) = 2)
    (Hshape : forall X,
        has_shape (evaluate (in1kmop w 1) X true)
                  (Z.of_nat (List.length X)) 2)
    (Hhv : forall X, (0 <= calc_perf_indicator (in1kmop w 1) X "hv")%Q) :
  let final := snd (run_main w "nsga2" 2) in
  let algorithm := nsga2 100 None None None None in
  let X1 := result_set w 1 algorithm 100 0 in
  let X2 := result_set w 1 algorithm 100 1 in
  exists st1 st2,
    read_file (report_name 1 "nsga2") (files final)
    = Some (JArray [json_run_stats st1; json_run_stats st2])
    /\ firstn 2 (experiment_stats final) = [st1; st2]
    /\ (run st1 = 1 /\ run st2 = 2)
    /\ (F st1 = evaluate (in1kmop w 1) X1 true
        /\ F st2 = evaluate (in1kmop w 1) X2 true)
    /\ (HV st1 = calc_perf_indicator (in1kmop w 1) X1 "hv"
        /\ HV st2 = calc_perf_indicator (in1kmop w 1) X2 "hv")
    /\ (has_shape (F st1) (Z.of_nat (List.length X1)) 2
        /\ has_shape (F st2) (Z.of_nat (List.length X2)) 2)
    /\ (0 <= HV st1 /\ 0 <= HV st2)%Q.
Proof.
  intros final algorithm X1 X2. subst final.
  assert (Hs : get_benchmark_settings (evaluator_n_objs (in1kmop w 1))
               = Ok (100, 100, RefDirs.das_dennis 99 2))
    by (rewrite Hcount; apply settings_for_two_objectives).
  assert (Ha : select_algorithm "nsga2" 100 (RefDirs.das_dennis 99 2)
               = Ok algorithm) by reflexivity.
  set (st1 := stats_of_run w 1 1 algorithm 100 0).
  set (st2 := stats_of_run w 1 2 algorithm 100 1).
  assert (Hfirst : exists s1,
             one_problem w "nsga2" 2 1 initial = (Ok tt, s1)
             /\ experiment_stats s1 = [st1; st2]
             /\ read_file (report_name 1 "nsga2") (files s1)
                = Some (JArray [json_run_stats st1; json_run_stats st2])).
  { eexists. split.
    - unfold one_problem, bind.
      change (range 1 (2 + 1)) with [1; 2].
      cbn [for_each]. unfold bind, ret.
      rewrite (one_run_ok w "nsga2" 1 1 initial _ _ _ _ Hs Ha).
      rewrite (one_run_ok w "nsga2" 1 2 _ _ _ _ _ Hs Ha).
      rewrite dump_report_eq. reflexivity.
    - cbn [experiment_stats files initial app engine_calls].
      split; [reflexivity|apply read_write_same]. }
  destruct Hfirst as (s1 & Hrun & Hstats & Hfile).
  exists st1, st2.
  assert (Hmain : run_main w "nsga2" 2
                  = for_each (range 2 10) (one_problem w "nsga2" 2) s1).
  { unfold run_main, main, bind. cbn [set_experiment_stats].
    rewrite (range_cons 1 10) by lia. cbn [for_each]. unfold bind.
    change {| experiment_stats := []; files := files initial;
              events := events initial;
              engine_calls := engine_calls initial |} with initial.
    rewrite Hrun. reflexivity. }
  rewrite Hmain.
  split; [|split].
  - rewrite problems_keep_other_reports; [exact Hfile|].
    intros q Hq. apply in_range in Hq. apply report_name_distinct; lia.
  - destruct (for_each_extends (fun _ => True) (one_problem w "nsga2" 2)
                (range 2 10)) with (s := s1) as [_ [later Hlater]].
    + intros pid s.
      destruct (one_problem_extends w "nsga2" 2 pid s)
        as [[evs [Hevs _]] Hnew].
      split; [|exact Hnew].
      exists evs. split; [exact Hevs|].
      apply Forall_forall. intros e _. exact I.
    + rewrite Hlater, Hstats. reflexivity.
  - split; [split; reflexivity|].
    split; [split; reflexivity|].
    split; [split; reflexivity|].
    split; [split; apply Hshape|].
    split; apply Hhv.
Qed.

Lemma scenario_report_witness :
  evaluator_n_objs (in1kmop Demo.world 1) = 2
  /\ (forall X,
        has_shape (evaluate (in1kmop Demo.world 1) X true)
                  (Z.of_nat (List.length X)) 2)
  /\ (forall X, (0 <= calc_perf_indicator (in1kmop Demo.world 1) X "hv")%Q)
  /\ exists st1 st2,
       read_file (report_name 1 "nsga2")
         (files (snd (run_main Demo.world "nsga2" 2)))
       = Some (JArray [json_run_stats st1; json_run_stats st2])
       /\ HV st1
          = calc_perf_indicator (in1kmop Demo.world 1)
              (result_set Demo.world 1 (nsga2 100 None None None None) 100 0)
              "hv".
Proof.
  assert (Hcount : evaluator_n_objs (in1kmop Demo.world 1) = 2)
    by reflexivity.
  assert (Hshape : forall X,
             has_shape (evaluate (in1kmop Demo.world 1) X true)
                       (Z.of_nat (List.length X)) 2).
  { intros X. split.
    - unfold shape0. cbn. rewrite length_map. reflexivity.
    - cbn. apply Forall_map, Forall_forall. intros x _. reflexivity. }
  assert (Hhv : forall X,
             (0 <= calc_perf_indicator (in1kmop Demo.world 1) X "hv")%Q).
  { intros X. cbn. unfold Qle. cbn. lia. }
  split; [exact Hcount|]. split; [exact Hshape|]. split; [exact Hhv|].
  destruct (scenario_report Demo.world Hcount Hshape Hhv)
    as (st1 & st2 & Hfile & _ & _ & _ & [Hhv1 _] & _).
  exists st1, st2. split; assumption.
Defined.

(** C7, as stated, fails: in the small world the population size for
    two objectives is 100, but the engine returns a single candidate in
    each repeat, so each of the two objective matrices in the report of
    problem 1 has shape (1, 2), not (100, 2). *)
Lemma scenario_matrix_rows_follow_result_set :
  let final := snd (run_main Demo.world "nsga2" 2) in
  let st1 := {| run := 1; F := [[inject_Z 1; inject_Z 0]];
                HV := inject_Z 1 |} in
  let st2 := {| run := 2; F := [[inject_Z 1; inject_Z 1]];
                HV := inject_Z 1 |} in
  get_benchmark_settings (evaluator_n_objs (in1kmop Demo.world 1))
  = Ok (100, 100, RefDirs.das_dennis 99 2)
  /\ read_file (report_name 1 "nsga2") (files final)
     = Some (JArray [json_run_stats st1; json_run_stats st2])
  /\ firstn 2 (experiment_stats final) = [st1; st2]
  /\ (shape0 (F st1) = 1 /\ shape0 (F st2) = 1)
  /\ ~ has_shape (F st1) 100 2
  /\ ~ has_shape (F st2) 100 2.
Proof.
  cbn zeta.
  split; [apply settings_for_two_objectives|].
  split; [vm_compute; reflexivity|].
  split; [vm_compute; reflexivity|].
  split; [split; reflexivity|].
  split; intros [Hrows _]; vm_compute in Hrows; discriminate Hrows.
Qed.

(** ** No repeats *)

Lemma one_problem_idle (w : World) (moea : string) (runs pid : Z) (s : State) :
  runs <= 0 ->
  one_problem w moea runs pid s = (Ok tt, after_problem w moea runs s pid).
Proof.
  intros H. unfold one_problem, bind, after_problem.
  rewrite (range_nil 1 (runs + 1)) by lia.
  destruct (resolved w pid) as [[pop n_gen] dirs].
  cbn [for_each repeats_stats repeats_events List.length app Nat.add].
  unfold ret. rewrite dump_report_eq, app_nil_r. reflexivity.
Qed.

Lemma problems_idle (w : World) (moea : string) (runs : Z) (pids : list Z) :
  runs <= 0 ->
  forall s,
    for_each pids (one_problem w moea runs) s
    = (Ok tt, after_problems w moea runs s pids).
Proof.
  intros Hruns. induction pids as [|q pids IH]; intros s; [reflexivity|].
  cbn [for_each]. unfold bind.
  rewrite one_problem_idle by exact Hruns.
  rewrite after_problems_cons. apply IH.
Qed.

(** With no repeat at all the family is never looked at, known or not:
    the script ends normally and every problem gets an empty report. *)
Lemma family_unnoticed_without_repeats (w : World) (moea : string)
    (runs pid : Z) :
  runs <= 0 -> 1 <= pid <= 9 ->
  fst (run_main w moea runs) = Ok tt
  /\ read_file (report_name pid moea) (files (snd (run_main w moea runs)))
     = Some (JArray []).
Proof.
  intros Hruns Hpid.
  assert (Hrun : run_main w moea runs
                 = (Ok tt, after_problems w moea runs initial (range 1 10))).
  { unfold run_main, main, bind. cbn [set_experiment_stats initial].
    apply problems_idle. exact Hruns. }
  rewrite Hrun. cbn [fst snd]. split; [reflexivity|].
  rewrite (range_split 1 pid 10) by lia.
  rewrite after_problems_file
    by (intros q Hq; apply in_range in Hq; apply report_name_distinct; lia).
  pose proof (after_problems_stats_length w moea runs
                (range 1 pid ++ [pid]) initial) as Hlen.
  replace (Z.to_nat runs) with 0%nat in Hlen by lia.
  rewrite Nat.mul_0_r in Hlen. cbn [initial experiment_stats List.length] in Hlen.
  destruct (experiment_stats _) as [|st l]; [reflexivity|discriminate Hlen].
Qed.

(** * Further properties of the script *)

(** ** Invariants of every run *)

Lemma count_all (f : Event -> bool) (l : list Event) :
  (forall e, In e l -> f e = true) -> count f l = List.length l.
Proof.
  induction l as [|e l IH]; intros H; [reflexivity|].
  rewrite count_cons, (H e) by (left; reflexivity).
  cbn [List.length]. rewrite IH; [reflexivity|].
  intros e' He'. apply H. right. exact He'.
Qed.

Lemma count_run_events_kinds (w : World) (pid r : Z) (algorithm : Algorithm)
    (pop_size n_gen : Z) (k : nat) :
  let evs := run_events w pid r algorithm pop_size n_gen k in
  count is_any_build evs = 1%nat
  /\ count is_any_minimize evs = 1%nat
  /\ count is_evaluate evs
     = S (List.length
            (asked (in1kmop w pid)
               (engine w (In1KMOPProblem (in1kmop w pid))
                       algorithm n_gen k))).
Proof.
  cbn zeta. unfold run_events.
  rewrite !count_cons, !count_app, !count_cons.
  cbn [is_any_build is_any_minimize is_evaluate].
  rewrite (count_none is_any_build (rev _)),
          (count_none is_any_minimize (rev _)),
          (count_all is_evaluate (rev _)).
  - rewrite length_rev, length_map.
    change (count is_any_build []) with 0%nat.
    change (count is_any_minimize []) with 0%nat.
    change (count is_evaluate []) with 0%nat.
    repeat split; lia.
  - intros e He. apply in_rev, in_map_iff in He.
    destruct He as [x [<- _]]. reflexivity.
  - intros e He. apply in_rev, in_map_iff in He.
    destruct He as [x [<- _]]. reflexivity.
  - intros e He. apply in_rev, in_map_iff in He.
    destruct He as [x [<- _]]. reflexivity.
Qed.

Lemma one_run_balanced (w : World) (moea : string) (pid r : Z) (s : State) :
  balanced s -> balanced (snd (one_run w moea pid r s)).
Proof.
  intros (Hb & Hm & Hl).
  destruct (settings_cases (evaluator_n_objs (in1kmop w pid)))
    as [[_ [dirs Hs]] | [_ Hs]].
  - destruct (select_cases moea (shape0 dirs) dirs) as [[_ [alg Ha]] | [_ Ha]].
    + rewrite (one_run_ok w moea pid r s _ _ _ _ Hs Ha). cbn [snd].
      destruct (count_run_events_kinds w pid r alg (shape0 dirs) 100
                  (engine_calls s)) as (Kb & Km & _).
      unfold balanced. cbn [events engine_calls experiment_stats].
      rewrite !count_app, length_app, Kb, Km, Hb, Hm, Hl.
      cbn [List.length]. repeat split; lia.
    + rewrite (one_run_no_algorithm w moea pid r s _ _ _ _ Hs Ha). cbn [snd].
      unfold balanced. cbn [events engine_calls experiment_stats].
      rewrite !count_cons. cbn [is_any_build is_any_minimize].
      repeat split; assumption.
  - rewrite (one_run_no_settings w moea pid r s _ Hs). cbn [snd].
    unfold balanced. cbn [events engine_calls experiment_stats].
    rewrite !count_cons. cbn [is_any_build is_any_minimize].
    repeat split; assumption.
Qed.

Lemma one_problem_balanced (w : World) (moea : string) (runs pid : Z)
    (s : State) :
  balanced s -> balanced (snd (one_problem w moea runs pid s)).
Proof.
  intros Hs. unfold one_problem, bind.
  pose proof (for_each_keeps balanced
                (fun r => one_run w moea pid r) (range 1 (runs + 1))
                (fun r s0 => one_run_balanced w moea pid r s0) s Hs) as Hloop.
  destruct (for_each _ _ s) as [[[]|e] s1]; cbn [snd] in *; [|exact Hloop].
  rewrite dump_report_eq. cbn [snd].
  destruct Hloop as (Hb & Hm & Hl).
  unfold balanced. cbn [events engine_calls experiment_stats].
  rewrite !count_cons. cbn [is_any_build is_any_minimize].
  repeat split; assumption.
Qed.

(** X4: at the end of every run of the script, normal or not, whatever
    the world, the family and the number of repeats: as many optimizers
    have been built as engine runs have been started, and as many
    entries stand in [experiment_stats].  No optimizer is built without
    being run, and no run is lost or counted twice. *)
Theorem every_optimizer_built_is_run_and_recorded (w : World)
    (moea : string) (runs : Z) :
  let final := snd (run_main w moea runs) in
  count is_any_build (trace final) = List.length (experiment_stats final)
  /\ count is_any_minimize (trace final)
     = List.length (experiment_stats final)
  /\ engine_calls final = List.length (experiment_stats final).
Proof.
  cbn zeta.
  assert (H : balanced (snd (run_main w moea runs))).
  { unfold run_main, main, bind. cbn [set_experiment_stats initial].
    apply (for_each_keeps balanced (one_problem w moea runs)).
    - intros pid s. apply one_problem_balanced.
    - repeat split. }
  destruct H as (Hb & Hm & Hl).
  unfold trace. rewrite !count_rev. repeat split; congruence.
Qed.

(** X3: every engine run the script ever starts, in any world and for
    any family, has the generation budget 100. *)
Theorem every_engine_run_has_budget_100 (w : World) (moea : string)
    (runs pid r n_gen : Z) :
  In (EvMinimize pid r n_gen) (trace (snd (run_main w moea runs))) ->
  n_gen = 100.
Proof.
  intros Hin. apply run_main_legal in Hin. cbn [legal] in Hin.
  destruct Hin as (pop & dirs & alg & Hs & _).
  destruct (settings_cases (evaluator_n_objs (in1kmop w pid)))
    as [[_ [dirs' Hs']] | [_ Hs']]; rewrite Hs' in Hs.
  - injection Hs as _ <- _. reflexivity.
  - discriminate Hs.
Qed.

Lemma every_engine_run_has_budget_100_witness :
  In (EvMinimize 2 1 100) (trace (snd (run_main Demo.world "nsga3" 1)))
  /\ 100 = 100.
Proof.
  assert (Hin : In (EvMinimize 2 1 100)
                   (trace (snd (run_main Demo.world "nsga3" 1)))).
  { vm_compute. do 15 right. left. reflexivity. }
  split; [exact Hin|].
  exact (every_engine_run_has_budget_100 Demo.world "nsga3" 1 2 1 100 Hin).
Defined.

(** X2: whichever of the three families is asked for, the optimizer
    built for a problem is handed the same cardinality, the number of
    reference directions resolved for that problem: as [pop_size] for
    nsga2 and nsga3, as the direction set itself for moead. *)
Theorem every_family_gets_the_same_size (w : World) (moea : string)
    (runs pid r : Z) (algorithm : Algorithm) :
  In (EvBuild pid r algorithm) (trace (snd (run_main w moea runs))) ->
  exists ref_dirs,
    get_benchmark_settings (evaluator_n_objs (in1kmop w pid))
    = Ok (shape0 ref_dirs, 100, ref_dirs)
    /\ size_argument algorithm = shape0 ref_dirs.
Proof.
  intros Hin. apply run_main_legal in Hin. cbn [legal] in Hin.
  destruct Hin as (pop & n_gen & dirs & Hs & Ha).
  destruct (settings_cases (evaluator_n_objs (in1kmop w pid)))
    as [[_ [dirs' Hs']] | [_ Hs']]; rewrite Hs' in Hs; [|discriminate Hs].
  injection Hs as <- <- <-.
  exists dirs'. split; [exact Hs'|].
  unfold select_algorithm in Ha.
  destruct (moea =? "nsga2")%string;
    [injection Ha as <-; reflexivity|].
  destruct (moea =? "moead")%string;
    [injection Ha as <-; reflexivity|].
  destruct (moea =? "nsga3")%string;
    [injection Ha as <-; reflexivity|discriminate Ha].
Qed.

Lemma every_family_gets_the_same_size_witness :
  In (EvBuild 1 1 (moead (RefDirs.das_dennis 99 2)
                         None None None None None None))
     (trace (snd (run_main Demo.world "moead" 1)))
  /\ size_argument (moead (RefDirs.das_dennis 99 2)
                          None None None None None None) = 100.
Proof.
  assert (Hin : In (EvBuild 1 1 (moead (RefDirs.das_dennis 99 2)
                                       None None None None None None))
                   (trace (snd (run_main Demo.world "moead" 1)))).
  { vm_compute. do 4 right. left. reflexivity. }
  split; [exact Hin|].
  destruct (every_family_gets_the_same_size
              Demo.world "moead" 1 1 1 _ Hin) as [dirs [Hs Hsize]].
  rewrite Hsize.
  change (evaluator_n_objs (in1kmop Demo.world 1)) with 2 in Hs.
  rewrite settings_for_two_objectives in Hs.
  injection Hs as Hpop _. symmetry. exact Hpop.
Defined.

(** ** How a run ends *)

Lemma one_problem_raises_settings (w : World) (moea : string)
    (runs pid : Z) (s : State) :
  1 <= runs ->
  ~ supported (evaluator_n_objs (in1kmop w pid)) ->
  one_problem w moea runs pid s
  = (Raise raised_in_settings,
     {| experiment_stats := experiment_stats s;
        files := files s;
        events := EvSettings pid (evaluator_n_objs (in1kmop w pid))
                    :: EvProblem pid :: EvBenchmark pid :: events s;
        engine_calls := engine_calls s |}).
Proof.
  intros Hruns Hbad. unfold one_problem, bind.
  rewrite (range_cons 1 (runs + 1)) by lia. cbn [for_each]. unfold bind.
  rewrite (one_run_no_settings w moea pid 1 s raised_in_settings
             (settings_unsupported _ Hbad)).
  reflexivity.
Qed.

Lemma one_problem_raises_dispatch (w : World) (moea : string)
    (runs pid : Z) (s : State) :
  1 <= runs ->
  supported (evaluator_n_objs (in1kmop w pid)) ->
  ~ known_family moea ->
  fst (one_problem w moea runs pid s) = Raise raised_in_dispatch.
Proof.
  intros Hruns Hsup Hfam. unfold one_problem, bind.
  rewrite (range_cons 1 (runs + 1)) by lia. cbn [for_each]. unfold bind.
  destruct (settings_supported _ Hsup) as [dirs Hs].
  rewrite (one_run_no_algorithm w moea pid 1 s _ _ _ raised_in_dispatch Hs
             (select_unknown moea _ _ Hfam)).
  reflexivity.
Qed.

Lemma supported_dec (n_obj : Z) : supported n_obj \/ ~ supported n_obj.
Proof. destruct (settings_cases n_obj) as [[H _]|[H _]]; tauto. Qed.

Lemma known_family_dec (moea : string) :
  known_family moea \/ ~ known_family moea.
Proof. destruct (select_cases moea 0 []) as [[H _]|[H _]]; tauto. Qed.

Lemma all_supported_dec (w : World) (pids : list Z) :
  (forall pid, In pid pids -> supported (evaluator_n_objs (in1kmop w pid)))
  \/ (exists pid, In pid pids
                  /\ ~ supported (evaluator_n_objs (in1kmop w pid))).
Proof.
  induction pids as [|p pids IH].
  - left. intros pid [].
  - destruct (supported_dec (evaluator_n_objs (in1kmop w p))) as [Hp|Hp].
    + destruct IH as [IH|[q [Hq Hbad]]].
      * left. intros pid [<-|Hin]; [exact Hp|apply IH; exact Hin].
      * right. exists q. split; [right; exact Hq|exact Hbad].
    + right. exists p. split; [left; reflexivity|exact Hp].
Qed.

Lemma problems_raise_settings (w : World) (moea : string) (runs : Z)
    (pids : list Z) :
  1 <= runs -> known_family moea ->
  (exists pid, In pid pids
               /\ ~ supported (evaluator_n_objs (in1kmop w pid))) ->
  forall s,
    fst (for_each pids (one_problem w moea runs) s) = Raise raised_in_settings.
Proof.
  intros Hruns Hfam. induction pids as [|p pids IH]; intros [q [Hq Hbad]] s.
  - destruct Hq.
  - cbn [for_each]. unfold bind.
    destruct (supported_dec (evaluator_n_objs (in1kmop w p))) as [Hp|Hp].
    + rewrite (one_problem_ok w moea Hfam runs p s Hp).
      apply IH. exists q. split; [|exact Hbad].
      destruct Hq as [<-|Hq]; [contradiction|exact Hq].
    + rewrite (one_problem_raises_settings w moea runs p s Hruns Hp).
      reflexivity.
Qed.

(** The first problem decides how a run with an unknown family ends. *)
Lemma run_main_unknown_family (w : World) (moea : string) (runs : Z) :
  1 <= runs -> ~ known_family moea ->
  fst (run_main w moea runs)
  = Raise raised_in_dispatch
  \/ fst (run_main w moea runs) = Raise raised_in_settings.
Proof.
  intros Hruns Hfam. unfold run_main, main, bind.
  cbn [set_experiment_stats initial].
  rewrite (range_cons 1 10) by lia. cbn [for_each]. unfold bind.
  destruct (supported_dec (evaluator_n_objs (in1kmop w 1))) as [Hp|Hp].
  - left.
    pose proof (one_problem_raises_dispatch w moea runs 1
                  {| experiment_stats := []; files := files initial;
                     events := events initial;
                     engine_calls := engine_calls initial |}
                  Hruns Hp Hfam) as H.
    destruct (one_problem w moea runs 1 _) as [[[]|e] s1];
      cbn [fst] in *; [discriminate H|exact H].
  - right. rewrite one_problem_raises_settings by assumption. reflexivity.
Qed.

(** X5: asked for at least one repeat, the script ends normally
    exactly when the family is one of nsga2, moead, nsga3 and every one
    of the problems 1 to 9 has 2, 3 or 4 objectives. *)
Theorem run_succeeds_iff (w : World) (moea : string) (runs : Z)
    (Hruns : 1 <= runs) :
  fst (run_main w moea runs) = Ok tt
  <-> known_family moea
      /\ forall pid, 1 <= pid <= 9 ->
                     supported (evaluator_n_objs (in1kmop w pid)).
Proof.
  split.
  - intros Hok. destruct (known_family_dec moea) as [Hfam|Hfam].
    + split; [exact Hfam|].
      destruct (all_supported_dec w (range 1 10)) as [Hall|Hbad].
      * intros pid Hpid. apply Hall, in_range. lia.
      * exfalso.
        pose proof (problems_raise_settings w moea runs (range 1 10)
                      Hruns Hfam Hbad
                      {| experiment_stats := []; files := files initial;
                         events := events initial;
                         engine_calls := engine_calls initial |}) as H.
        unfold run_main, main, bind in Hok.
        cbn [set_experiment_stats] in Hok.
        rewrite H in Hok. discriminate Hok.
    + exfalso.
      destruct (run_main_unknown_family w moea runs Hruns Hfam) as [H|H];
        rewrite H in Hok; discriminate Hok.
  - intros [Hfam Hall].
    rewrite (run_main_ok w moea Hfam runs Hall). reflexivity.
Qed.

Lemma run_succeeds_iff_witness :
  1 <= 2
  /\ (fst (run_main Demo.world "nsga3" 2) = Ok tt
      <-> known_family "nsga3"
          /\ forall pid, 1 <= pid <= 9 ->
                supported (evaluator_n_objs (in1kmop Demo.world pid)))
  /\ fst (run_main Demo.world "nsga3" 2) = Ok tt.
Proof.
  assert (Hruns : 1 <= 2) by lia.
  split; [exact Hruns|].
  split; [exact (run_succeeds_iff Demo.world "nsga3" 2 Hruns)|].
  apply (proj2 (run_succeeds_iff Demo.world "nsga3" 2 Hruns)).
  split; [right; right; reflexivity|].
  intros pid _. left. reflexivity.
Defined.

(** X6: asked for at least one repeat, the script can only end by one
    of its own two [NotImplementedError]s, raised on line 59 or on
    line 141, if it ends by an exception at all. *)
Theorem run_raises_only_not_implemented (w : World) (moea : string)
    (runs : Z) (e : exn)
    (Hruns : 1 <= runs) :
  fst (run_main w moea runs) = Raise e ->
  e = raised_in_settings \/ e = raised_in_dispatch.
Proof.
  intros Hraise.
  destruct (known_family_dec moea) as [Hfam|Hfam].
  - destruct (all_supported_dec w (range 1 10)) as [Hall|Hbad].
    + rewrite (run_main_ok w moea Hfam runs) in Hraise;
        [discriminate Hraise|].
      intros pid Hpid. apply Hall, in_range. lia.
    + pose proof (problems_raise_settings w moea runs (range 1 10)
                    Hruns Hfam Hbad
                    {| experiment_stats := []; files := files initial;
                       events := events initial;
                       engine_calls := engine_calls initial |}) as H.
      unfold run_main, main, bind in Hraise.
      cbn [set_experiment_stats] in Hraise.
      rewrite H in Hraise. injection Hraise as <-. left. reflexivity.
  - destruct (run_main_unknown_family w moea runs Hruns Hfam) as [H|H];
      rewrite H in Hraise; injection Hraise as <-;
      [right|left]; reflexivity.
Qed.

Lemma run_raises_only_not_implemented_witness :
  1 <= 1
  /\ fst (run_main Demo.world5 "nsga2" 1) = Raise raised_in_settings
  /\ (raised_in_settings = raised_in_settings
      \/ raised_in_settings = raised_in_dispatch).
Proof.
  assert (Hruns : 1 <= 1) by lia.
  assert (H : fst (run_main Demo.world5 "nsga2" 1) = Raise raised_in_settings)
    by (vm_compute; reflexivity).
  split; [exact Hruns|]. split; [exact H|].
  exact (run_raises_only_not_implemented Demo.world5 "nsga2" 1 _ Hruns H).
Defined.

(** X7: the objective count is looked at before the family.  With at
    least one repeat and a first problem whose objective count is
    unsupported, the script ends with the exception of line 59 whatever
    the family, known or not, before anything else is done. *)
Theorem count_is_checked_before_family (w : World) (moea : string)
    (runs : Z)
    (Hruns : 1 <= runs)
    (Hcount : ~ supported (evaluator_n_objs (in1kmop w 1))) :
  run_main w moea runs
  = (Raise raised_in_settings,
     {| experiment_stats := [];
        files := [];
        events := [EvSettings 1 (evaluator_n_objs (in1kmop w 1));
                   EvProblem 1; EvBenchmark 1];
        engine_calls := 0 |}).
Proof.
  unfold run_main, main, bind. cbn [set_experiment_stats initial].
  rewrite (range_cons 1 10) by lia. cbn [for_each]. unfold bind.
  rewrite one_problem_raises_settings by assumption. reflexivity.
Qed.

Lemma count_is_checked_before_family_witness :
  1 <= 2
  /\ ~ supported (evaluator_n_objs (in1kmop DemoOne.world 1))
  /\ fst (run_main DemoOne.world "spea2" 2) = Raise raised_in_settings.
Proof.
  assert (Hruns : 1 <= 2) by lia.
  assert (Hcount : ~ supported (evaluator_n_objs (in1kmop DemoOne.world 1)))
    by (unfold supported; cbn; lia).
  split; [exact Hruns|]. split; [exact Hcount|].
  rewrite (count_is_checked_before_family
             DemoOne.world "spea2" 2 Hruns Hcount).
  reflexivity.
Defined.

(** ** What a run leaves behind *)

Lemma after_problems_engine_calls (w : World) (moea : string) (runs : Z)
    (pids : list Z) (s : State) :
  engine_calls (after_problems w moea runs s pids)
  = (engine_calls s + List.length pids * Z.to_nat runs)%nat.
Proof.
  revert s. induction pids as [|pid pids IH]; intros s.
  - cbn [after_problems fold_left List.length]. lia.
  - rewrite after_problems_cons, IH.
    unfold after_problem. destruct (resolved w pid) as [[pop n_gen] dirs].
    cbn [engine_calls List.length]. rewrite range_length.
    replace (Z.to_nat (runs + 1 - 1)) with (Z.to_nat runs) by lia. lia.
Qed.

Lemma after_problems_runs (w : World) (moea : string) (runs : Z)
    (pids : list Z) (s : State) :
  map run (experiment_stats (after_problems w moea runs s pids))
  = map run (experiment_stats s)
      ++ flat_map (fun _ => range 1 (runs + 1)) pids.
Proof.
  revert s. induction pids as [|pid pids IH]; intros s.
  - cbn [after_problems fold_left flat_map]. rewrite app_nil_r. reflexivity.
  - rewrite after_problems_cons, IH.
    destruct (after_problem_stats w moea runs s pid) as [own [-> Hown]].
    rewrite map_app, Hown. cbn [flat_map]. rewrite app_assoc. reflexivity.
Qed.

Lemma run_main_stops_at (w : World) (moea : string) (runs pid : Z) :
  known_family moea -> 1 <= runs -> 1 <= pid <= 9 ->
  ~ supported (evaluator_n_objs (in1kmop w pid)) ->
  (forall q, 1 <= q < pid -> supported (evaluator_n_objs (in1kmop w q))) ->
  let reached := after_problems w moea runs initial (range 1 pid) in
  run_main w moea runs
  = (Raise raised_in_settings,
     {| experiment_stats := experiment_stats reached;
        files := files reached;
        events := EvSettings pid (evaluator_n_objs (in1kmop w pid))
                    :: EvProblem pid :: EvBenchmark pid :: events reached;
        engine_calls := engine_calls reached |}).
Proof.
  intros Hfam Hruns Hpid Hbad Hbefore reached. subst reached.
  unfold run_main, main, bind. cbn [set_experiment_stats initial].
  rewrite (range_split 1 pid 10) by lia.
  rewrite for_each_app.
  rewrite (problems_ok w moea Hfam runs (range 1 pid))
    by (intros q Hq; apply in_range in Hq; apply Hbefore; lia).
  cbn [for_each]. unfold bind.
  rewrite one_problem_raises_settings by assumption.
  reflexivity.
Qed.

(** X8: what is left when the script stops at the first problem with an
    unsupported objective count: the reports of the problems before it
    are in place, that of problem [q] with [q * runs] entries; there is
    no report for that problem or any later one; and [experiment_stats]
    holds the [(pid - 1) * runs] entries of the runs that were made. *)
Theorem earlier_reports_survive_a_failure (w : World) (moea : string)
    (runs pid : Z)
    (Hfamily : known_family moea)
    (Hruns : 1 <= runs)
    (Hpid : 1 <= pid <= 9)
    (Hcount : ~ supported (evaluator_n_objs (in1kmop w pid)))
    (Hbefore : forall q, 1 <= q < pid ->
                         supported (evaluator_n_objs (in1kmop w q))) :
  let final := snd (run_main w moea runs) in
  (forall q, 1 <= q < pid ->
     exists entries,
       read_file (report_name q moea) (files final) = Some (JArray entries)
       /\ List.length entries = (Z.to_nat q * Z.to_nat runs)%nat)
  /\ (forall q, pid <= q <= 9 ->
        read_file (report_name q moea) (files final) = None)
  /\ List.length (experiment_stats final)
     = (Z.to_nat (pid - 1) * Z.to_nat runs)%nat.
Proof.
  cbn zeta.
  rewrite (run_main_stops_at w moea runs pid Hfamily Hruns Hpid Hcount Hbefore).
  cbn [snd files experiment_stats].
  split; [|split].
  - intros q Hq.
    rewrite (range_split 1 q pid) by lia.
    rewrite after_problems_file
      by (intros q' Hq'; apply in_range in Hq';
          apply report_name_distinct; lia).
    eexists. split; [reflexivity|].
    rewrite length_map, after_problems_stats_length.
    rewrite length_app, range_length.
    cbn [initial experiment_stats List.length].
    replace (Z.to_nat (q - 1) + 1)%nat with (Z.to_nat q) by lia.
    reflexivity.
  - intros q Hq.
    rewrite after_problems_frame; [reflexivity|].
    intros q' Hq'. apply in_range in Hq'. apply report_name_distinct; lia.
  - rewrite after_problems_stats_length, range_length.
    cbn [initial experiment_stats List.length]. lia.
Qed.

Lemma earlier_reports_survive_a_failure_witness :
  known_family "nsga2"
  /\ 1 <= 2
  /\ 1 <= 3 <= 9
  /\ ~ supported (evaluator_n_objs (in1kmop Demo.world5 3))
  /\ (forall q, 1 <= q < 3 ->
                supported (evaluator_n_objs (in1kmop Demo.world5 q)))
  /\ List.length (experiment_stats (snd (run_main Demo.world5 "nsga2" 2)))
     = 4%nat.
Proof.
  assert (Hfamily : known_family "nsga2") by (left; reflexivity).
  assert (Hruns : 1 <= 2) by lia.
  assert (Hpid : 1 <= 3 <= 9) by lia.
  assert (Hcount : ~ supported (evaluator_n_objs (in1kmop Demo.world5 3)))
    by (unfold supported; cbn; lia).
  assert (Hbefore : forall q, 1 <= q < 3 ->
                      supported (evaluator_n_objs (in1kmop Demo.world5 q))).
  { intros q Hq. assert (Hq' : q = 1 \/ q = 2) by lia.
    destruct Hq' as [-> | ->]; left; reflexivity. }
  split; [exact Hfamily|]. split; [exact Hruns|]. split; [exact Hpid|].
  split; [exact Hcount|]. split; [exact Hbefore|].
  exact (proj2 (proj2 (earlier_reports_survive_a_failure
                         Demo.world5 "nsga2" 2 3
                         Hfamily Hruns Hpid Hcount Hbefore))).
Defined.

(** X9: asked for no repeat (zero or a negative number), the script
    does no work at all, whatever the family and whatever the suite:
    no benchmark, problem, settings or optimizer is ever constructed,
    the engine never runs and [experiment_stats] stays empty.  With one
    of the three known families it ends normally, and every problem
    from 1 to 9 gets a report that is the empty array. *)
Theorem no_repeats_no_work (w : World) (moea : string) (runs : Z)
    (Hruns : runs <= 0) :
  let final := snd (run_main w moea runs) in
  count is_construction (trace final) = 0%nat
  /\ engine_calls final = 0%nat
  /\ experiment_stats final = []
  /\ (known_family moea ->
      fst (run_main w moea runs) = Ok tt
      /\ forall pid, 1 <= pid <= 9 ->
           read_file (report_name pid moea) (files final)
           = Some (JArray [])).
Proof.
  cbn zeta.
  assert (Hrun : run_main w moea runs
                 = (Ok tt, after_problems w moea runs initial (range 1 10))).
  { unfold run_main, main, bind. cbn [set_experiment_stats initial].
    apply problems_idle. exact Hruns. }
  rewrite Hrun. cbn [fst snd].
  assert (Hstats : experiment_stats
                     (after_problems w moea runs initial (range 1 10)) = []).
  { pose proof (after_problems_stats_length w moea runs
                  (range 1 10) initial) as Hlen.
    replace (Z.to_nat runs) with 0%nat in Hlen by lia.
    rewrite Nat.mul_0_r in Hlen.
    cbn [initial experiment_stats List.length] in Hlen.
    destruct (experiment_stats _) as [|st l]; [reflexivity|discriminate Hlen]. }
  split; [|split; [|split]].
  - unfold trace. rewrite count_rev.
    rewrite (count_after_problems w moea runs is_construction)
      by (intros e He; exact He).
    rewrite (range_nil 1 (runs + 1)) by lia. cbn [map].
    change (list_sum []) with 0%nat.
    rewrite list_sum_zero. reflexivity.
  - rewrite after_problems_engine_calls.
    replace (Z.to_nat runs) with 0%nat by lia.
    cbn [initial engine_calls]. lia.
  - exact Hstats.
  - intros _. split; [reflexivity|].
    intros pid Hpid.
    apply (family_unnoticed_without_repeats w moea runs pid Hruns) in Hpid.
    rewrite Hrun in Hpid. cbn [snd] in Hpid. apply Hpid.
Qed.

Lemma no_repeats_no_work_witness :
  -1 <= 0
  /\ count is_construction (trace (snd (run_main DemoOne.world "spea2" (-1))))
     = 0%nat
  /\ fst (run_main DemoOne.world "moead" (-1)) = Ok tt.
Proof.
  assert (Hruns : -1 <= 0) by lia.
  split; [exact Hruns|].
  split; [exact (proj1 (no_repeats_no_work DemoOne.world "spea2" (-1) Hruns))|].
  apply (proj2 (proj2 (proj2
           (no_repeats_no_work DemoOne.world "moead" (-1) Hruns)))).
  right. left. reflexivity.
Defined.

(** X10: when the family is known and every problem supported, the
    script ends normally after exactly [9 * runs] engine runs, and the
    nine reports are the only files it has written. *)
Theorem a_full_run_makes_nine_reports (w : World) (moea : string) (runs : Z)
    (Hfamily : known_family moea)
    (Hcounts : forall pid, 1 <= pid <= 9 ->
                           supported (evaluator_n_objs (in1kmop w pid))) :
  let final := snd (run_main w moea runs) in
  fst (run_main w moea runs) = Ok tt
  /\ engine_calls final = (9 * Z.to_nat runs)%nat
  /\ List.length (experiment_stats final) = (9 * Z.to_nat runs)%nat
  /\ (forall pid, 1 <= pid <= 9 ->
        exists entries,
          read_file (report_name pid moea) (files final)
          = Some (JArray entries))
  /\ (forall name,
        (forall pid, 1 <= pid <= 9 ->
                     (report_name pid moea =? name)%string = false) ->
        read_file name (files final) = None).
Proof.
  cbn zeta. rewrite (run_main_ok w moea Hfamily runs Hcounts).
  cbn [fst snd].
  split; [reflexivity|]. split; [|split; [|split]].
  - rewrite after_problems_engine_calls, range_length.
    cbn [initial engine_calls]. reflexivity.
  - rewrite after_problems_stats_length, range_length.
    cbn [initial experiment_stats List.length]. reflexivity.
  - intros pid Hpid. rewrite (range_split 1 pid 10) by lia.
    rewrite after_problems_file
      by (intros q Hq; apply in_range in Hq; apply report_name_distinct; lia).
    eexists. reflexivity.
  - intros name Hname. rewrite after_problems_frame; [reflexivity|].
    intros q Hq. apply in_range in Hq. apply Hname. lia.
Qed.

Lemma a_full_run_makes_nine_reports_witness :
  known_family "moead"
  /\ (forall pid, 1 <= pid <= 9 ->
                  supported (evaluator_n_objs (in1kmop Demo.world pid)))
  /\ engine_calls (snd (run_main Demo.world "moead" 3)) = 27%nat.
Proof.
  assert (Hfamily : known_family "moead") by (right; left; reflexivity).
  assert (Hcounts : forall pid, 1 <= pid <= 9 ->
                      supported (evaluator_n_objs (in1kmop Demo.world pid)))
    by (intros pid _; left; reflexivity).
  split; [exact Hfamily|]. split; [exact Hcounts|].
  exact (proj1 (proj2 (a_full_run_makes_nine_reports
                         Demo.world "moead" 3 Hfamily Hcounts))).
Defined.

(** X11: the run index of an entry restarts at 1 for every problem:
    after a full run the [run] keys of [experiment_stats] read
    1, ..., runs nine times over, so the index alone does not tell the
    problem an entry belongs to. *)
Theorem run_index_restarts_for_every_problem (w : World) (moea : string)
    (runs : Z)
    (Hfamily : known_family moea)
    (Hcounts : forall pid, 1 <= pid <= 9 ->
                           supported (evaluator_n_objs (in1kmop w pid))) :
  map run (experiment_stats (snd (run_main w moea runs)))
  = flat_map (fun _ => range 1 (runs + 1)) (range 1 10).
Proof.
  rewrite (run_main_ok w moea Hfamily runs Hcounts). cbn [snd].
  rewrite after_problems_runs. reflexivity.
Qed.

Lemma run_index_restarts_for_every_problem_witness :
  known_family "nsga2"
  /\ (forall pid, 1 <= pid <= 9 ->
                  supported (evaluator_n_objs (in1kmop Demo.world pid)))
  /\ map run (experiment_stats (snd (run_main Demo.world "nsga2" 2)))
     = [1; 2; 1; 2; 1; 2; 1; 2; 1; 2; 1; 2; 1; 2; 1; 2; 1; 2].
Proof.
  assert (Hfamily : known_family "nsga2") by (left; reflexivity).
  assert (Hcounts : forall pid, 1 <= pid <= 9 ->
                      supported (evaluator_n_objs (in1kmop Demo.world pid)))
    by (intros pid _; left; reflexivity).
  split; [exact Hfamily|]. split; [exact Hcounts|].
  rewrite (run_index_restarts_for_every_problem
             Demo.world "nsga2" 2 Hfamily Hcounts).
  reflexivity.
Defined.

Lemma run_main_balanced (w : World) (moea : string) (runs : Z) :
  balanced (snd (run_main w moea runs)).
Proof.
  unfold run_main, main, bind. cbn [set_experiment_stats initial].
  apply (for_each_keeps balanced (one_problem w moea runs)).
  - intros pid s. apply one_problem_balanced.
  - repeat split.
Qed.

(** X1: with a family other than nsga2, moead and nsga3 the script
    never builds an optimizer, never runs the engine and never records
    an entry, in any world and for any number of repeats. *)
Theorem unknown_family_never_runs_the_engine (w : World) (moea : string)
    (runs : Z)
    (Hfamily : ~ known_family moea) :
  let final := snd (run_main w moea runs) in
  count is_any_build (trace final) = 0%nat
  /\ engine_calls final = 0%nat
  /\ experiment_stats final = [].
Proof.
  cbn zeta.
  assert (Hnone : count is_any_build (trace (snd (run_main w moea runs)))
                  = 0%nat).
  { apply count_none. intros e Hin.
    destruct e as [| | | |p r alg| | | |]; try reflexivity.
    exfalso. apply run_main_legal in Hin. cbn [legal] in Hin.
    destruct Hin as (pop & n_gen & dirs & _ & Ha).
    rewrite (select_unknown moea pop dirs Hfamily) in Ha. discriminate Ha. }
  destruct (run_main_balanced w moea runs) as (Hb & _ & Hl).
  unfold trace in Hnone. rewrite count_rev in Hnone.
  split; [unfold trace; rewrite count_rev; exact Hnone|].
  split; [congruence|].
  destruct (experiment_stats _) as [|st l]; [reflexivity|].
  cbn [List.length] in Hl. congruence.
Qed.

Lemma unknown_family_never_runs_the_engine_witness :
  ~ known_family "NSGA2"
  /\ engine_calls (snd (run_main Demo.world "NSGA2" 4)) = 0%nat.
Proof.
  assert (Hfamily : ~ known_family "NSGA2")
    by (unfold known_family; intros [H | [H | H]]; discriminate H).
  split; [exact Hfamily|].
  exact (proj1 (proj2 (unknown_family_never_runs_the_engine
                         Demo.world "NSGA2" 4 Hfamily))).
Defined.

(** ** Report names *)





(** ** One repeat *)

(** X13: one repeat on a supported problem with a known family never
    raises.  It calls [benchmark.evaluate] once for every request the
    engine makes during the search and once more on the result set
    [res.X]; the entry it appends holds the evaluation and the "hv"
    indicator of that same result set. *)
Theorem one_repeat_evaluates_requests_and_result (w : World)
    (moea : string) (pid r : Z) (s : State)
    (Hcount : supported (evaluator_n_objs (in1kmop w pid)))
    (Hfamily : known_family moea) :
  let b := in1kmop w pid in
  let search :=
    engine w (In1KMOPProblem b) (chosen w moea pid) 100 (engine_calls s) in
  let s' := snd (one_run w moea pid r s) in
  fst (one_run w moea pid r s) = Ok tt
  /\ count is_evaluate (events s')
     = (count is_evaluate (events s) + List.length (asked b search) + 1)%nat
  /\ experiment_stats s'
     = experiment_stats s
         ++ [{| run := r;
                F := evaluate b (outcome b search) true;
                HV := calc_perf_indicator b (outcome b search) "hv" |}]
  /\ files s' = files s.
Proof.
  cbn zeta.
  destruct (settings_supported _ Hcount) as [dirs Hs].
  destruct (select_known moea (shape0 dirs) dirs Hfamily) as [alg Ha].
  assert (Hchosen : chosen w moea pid = alg)
    by (unfold chosen, resolved; rewrite Hs, Ha; reflexivity).
  rewrite Hchosen.
  rewrite (one_run_ok w moea pid r s _ _ _ _ Hs Ha).
  cbn [fst snd events experiment_stats files].
  destruct (count_run_events_kinds w pid r alg (shape0 dirs) 100
              (engine_calls s)) as (_ & _ & Ke).
  split; [reflexivity|]. split; [|split; reflexivity].
  rewrite count_app, Ke. lia.
Qed.

Lemma one_repeat_evaluates_requests_and_result_witness :
  supported (evaluator_n_objs (in1kmop Demo.world 2))
  /\ known_family "nsga3"
  /\ count is_evaluate (events (snd (one_run Demo.world "nsga3" 2 1 initial)))
     = 2%nat.
Proof.
  assert (Hcount : supported (evaluator_n_objs (in1kmop Demo.world 2)))
    by (left; reflexivity).
  assert (Hfamily : known_family "nsga3") by (right; right; reflexivity).
  split; [exact Hcount|]. split; [exact Hfamily|].
  exact (proj1 (proj2 (one_repeat_evaluates_requests_and_result
                         Demo.world "nsga3" 2 1 initial Hcount Hfamily))).
Defined.
